(** * hikari.internal.marshaller: dereference_handle

    The repository holds two native implementations of the same Python
    function, [dereference_handle]: one in C (marshaller.c) and one in C++
    (marshaller.cpp).  Both take a handle such as ["foo.bar#baz.bork"], import
    a module and walk attributes.  This file embeds both, each in a module of
    its own, over one abstract Python runtime, and states the properties of
    the handle resolver against them. *)

From Stdlib Require Import String Ascii List Arith Lia Bool.
From Equations Require Import Equations.
Import ListNotations.
Local Open Scope string_scope.
Local Open Scope list_scope.

(** ** The Python runtime

    The resolver itself holds no logic about modules and attributes: it asks
    the runtime.  [importModule] stands for importing a module by its dotted
    name (importlib.import_module, cached in [_import_module], for the C file;
    PyImport_ImportModule for the C++ file) and [getAttribute] for
    PyObject_GetAttrString.  A failing call yields the exception it raises.
    [unicodeDecodeError bytes] is the exception that the runtime raises when
    it is handed the C string [bytes] to make a Python string of and these
    bytes are not UTF-8: no call is entered then. *)

Record runtime : Type := {
  Obj : Type;
  Exc : Type;
  importModule : string -> Obj + Exc;
  getAttribute : Obj -> string -> Obj + Exc;
  unicodeDecodeError : string -> Exc
}.

(** The calls a run makes to the runtime, in the order it makes them. *)
Inductive call (O : Type) : Type :=
| Import (name : string)
| GetAttr (target : O) (name : string).

Arguments Import {O} name.
Arguments GetAttr {O} target name.

(** The calls of a run over the runtime [py]. *)
Definition trace (py : runtime) : Type := list (call (Obj py)).

(** A [PyObject *] as a C function returns it: an object, or NULL with the
    exception that was raised. *)
Definition PyObject (py : runtime) : Type := (Obj py + Exc py)%type.

(** ** Characters and C strings *)

Definition NUL : ascii := Ascii.zero.
Abbreviation hash := "#"%char.
Abbreviation period := "."%char.

(** [strstr haystack needle]: the offset of the first occurrence of [needle]
    in [haystack] (C returns the pointer [haystack + offset]), or NULL. *)
Fixpoint strstr (haystack needle : string) : option nat :=
  if prefix needle haystack then Some 0
  else match haystack with
       | EmptyString => None
       | String _ rest => option_map S (strstr rest needle)
       end.

(** Pointer arithmetic on a [const char *]: [s +> n] is the string at [s + n]. *)
Definition advance (s : string) (n : nat) : string :=
  substring n (String.length s - n) s.

Infix "+>" := advance (at level 35).

(** Memory at the address of a buffer: the bytes found there, one after the
    other.  For a block that malloc returns these are the bytes of the block,
    which are indeterminate until written, and then whatever bytes lie behind
    it.  The C standard defines a read of the first only. *)
Definition memory : Type := list ascii.

(** [strncpy dest src n] writes exactly [n] bytes at [dest]: the characters
    of [src], then NUL bytes if [src] is shorter than [n].  It writes no
    terminator when [src] has [n] characters or more. *)
Definition strncpy (dest : memory) (src : string) (n : nat) : memory :=
  firstn n (list_ascii_of_string src ++ repeat NUL n) ++ skipn n dest.

(** Reading a C string at a buffer: the bytes before the first NUL.  [None]
    when the read runs through all the memory known without meeting one. *)
Fixpoint c_str (m : memory) : option string :=
  match m with
  | [] => None
  | c :: m' =>
      if Ascii.eqb c NUL then Some EmptyString
      else option_map (String c) (c_str m')
  end.

(** Whether the C string at a block of [size] bytes ends within the block. *)
Definition terminated (size : nat) (m : memory) : bool :=
  existsb (Ascii.eqb NUL) (firstn size m).

(** ** UTF-8

    The runtime makes a Python string of a C string by decoding it as UTF-8,
    and accepts the well-formed byte sequences of the Unicode standard only
    (table 3-7): no overlong form, no surrogate, nothing above U+10FFFF. *)

Definition byte_in (lo hi : nat) (c : ascii) : bool :=
  (lo <=? nat_of_ascii c)%nat && (nat_of_ascii c <=? hi)%nat.

(** A continuation byte, 80 to BF. *)
Definition continuation (c : ascii) : bool := byte_in 128 191 c.

(** The first two bytes of a sequence of three: E0 A0..BF, E1..EC 80..BF,
    ED 80..9F, EE..EF 80..BF. *)
Definition leads_three (a b : ascii) : bool :=
  byte_in 224 224 a && byte_in 160 191 b
  || byte_in 225 236 a && continuation b
  || byte_in 237 237 a && byte_in 128 159 b
  || byte_in 238 239 a && continuation b.

(** The first two bytes of a sequence of four: F0 90..BF, F1..F3 80..BF,
    F4 80..8F. *)
Definition leads_four (a b : ascii) : bool :=
  byte_in 240 240 a && byte_in 144 191 b
  || byte_in 241 243 a && continuation b
  || byte_in 244 244 a && byte_in 128 143 b.

(** Whether the bytes of [s] decode. *)
Fixpoint utf8 (s : string) : bool :=
  match s with
  | EmptyString => true
  | String a s1 =>
      if byte_in 0 127 a then utf8 s1
      else
        match s1 with
        | EmptyString => false
        | String b s2 =>
            if byte_in 194 223 a then continuation b && utf8 s2
            else
              match s2 with
              | EmptyString => false
              | String c s3 =>
                  if leads_three a b then continuation c && utf8 s3
                  else
                    match s3 with
                    | EmptyString => false
                    | String d s4 =>
                        leads_four a b && continuation c && continuation d
                        && utf8 s4
                    end
              end
        end
  end.

(** ** std::string and std::stringstream *)

Fixpoint mem_char (c : ascii) (chars : string) : bool :=
  match chars with
  | EmptyString => false
  | String d chars' => Ascii.eqb c d || mem_char c chars'
  end.

(** [s.find_first_of(chars)]: the position of the first character of [s] that
    is one of [chars]; [None] is [npos]. *)
Fixpoint find_first_of (s chars : string) : option nat :=
  match s with
  | EmptyString => None
  | String c rest =>
      if mem_char c chars then Some 0
      else option_map S (find_first_of rest chars)
  end.

(** [s.substr(pos, n)] and [s.substr(pos)], for [pos] within [s]. *)
Definition substr (s : string) (pos n : nat) : string := substring pos n s.
Definition substr_from (s : string) (pos : nat) : string :=
  substring pos (String.length s - pos) s.

(** An input string stream: the characters not read yet and the eof bit. *)
Record istream : Type := { rdbuf : string; eofbit : bool }.

Definition stringstream (s : string) : istream :=
  {| rdbuf := s; eofbit := false |}.

(** The characters up to the first [delim], and what follows that delimiter
    ([None] when the end of the string came first). *)
Fixpoint extract (s : string) (delim : ascii) : string * option string :=
  match s with
  | EmptyString => (EmptyString, None)
  | String c rest =>
      if Ascii.eqb c delim then (EmptyString, Some rest)
      else let (token, after) := extract rest delim in (String c token, after)
  end.

(** [std::getline(stream, token, delim)], [None] when the stream converts to
    false afterwards.  A stream whose eof bit is set yields nothing.  Else the
    characters up to the delimiter are extracted and the delimiter dropped;
    reaching the end sets the eof bit, and sets the fail bit too when not a
    single character was extracted. *)
Definition getline (stream : istream) (delim : ascii) : option (string * istream) :=
  if eofbit stream then None
  else let (token, after) := extract (rdbuf stream) delim in
       match after with
       | Some rest => Some (token, {| rdbuf := rest; eofbit := false |})
       | None =>
           match token with
           | EmptyString => None
           | _ => Some (token, {| rdbuf := EmptyString; eofbit := true |})
           end
       end.

(** What bounds the number of further successful [getline] calls. *)
Definition unread (stream : istream) : nat :=
  if eofbit stream then 0 else S (String.length (rdbuf stream)).

(** A value together with the equation that says where it comes from, for
    the loops below to know what their test found. *)
Definition inspect {A : Type} (a : A) : {b : A | a = b} := exist _ a eq_refl.

(** ** marshaller.cpp *)

Module Cpp.
Section Marshaller.
Context (py : runtime).

(** A computation of the C++ function: its value, or the exception with
    which it returned [nullptr], and the calls made to the runtime. *)
Definition Py (A : Type) : Type := ((A + Exc py) * trace py)%type.

Definition ret {A : Type} (a : A) : Py A := (inl a, []).

(** Sequencing, with RETURN_IF_NULL between the two parts: when the first
    part yields [nullptr] the function returns at once. *)
Definition bind {A B : Type} (m : Py A) (k : A -> Py B) : Py B :=
  match m with
  | (inl a, t) => let (r, t') := k a in (r, t ++ t')
  | (inr e, t) => (inr e, t)
  end.

Notation "x <- m ;; k" := (bind m (fun x => k))
  (at level 61, m at next level, right associativity).

(** The names that the C++ function hands to the runtime are std::strings cut
    from the handle, which is UTF-8: making Python strings of them does not
    fail. *)
Definition PyImport_ImportModule (name : string) : Py (Obj py) :=
  (importModule py name, [Import name]).

Definition PyObject_GetAttrString (target : Obj py) (name : string) : Py (Obj py) :=
  (getAttribute py target name, [GetAttr target name]).

(** The loop of lines 55 to 58:
    [while (std::getline(attr_name, token, '.')) {
       target = PyObject_GetAttrString(target, token.c_str());
       RETURN_IF_NULL(target) }]
    and the [return target] that follows it. *)
Equations? while_getline (attr_name : istream) (target : Obj py) : Py (Obj py)
  by wf (unread attr_name) lt :=
  while_getline attr_name target with inspect (getline attr_name period) := {
    | exist _ (Some (token, attr_name')) _ =>
        target' <- PyObject_GetAttrString target token ;;
        while_getline attr_name' target'
    | exist _ None _ => ret target }.
Proof.
  clear while_getline target target'.
  destruct attr_name as [buf eof]; unfold getline, unread in *; simpl in *.
  destruct eof; [discriminate|].
  assert (Hx : forall s tok rest, extract s period = (tok, Some rest) ->
                 String.length rest < String.length s).
  { induction s as [|c s IH]; simpl; intros tok rest Hs; [discriminate|].
    destruct (Ascii.eqb c period).
    - inversion Hs; subst; lia.
    - destruct (extract s period) as [tok' after] eqn:Hs'.
      inversion Hs; subst. specialize (IH _ _ eq_refl). lia. }
  destruct (extract buf period) as [tok [rest|]] eqn:Hb.
  - inversion e; subst; simpl; specialize (Hx _ _ _ Hb); lia.
  - destruct tok; inversion e; subst; simpl. lia.
Qed.

Definition dereference_handle (handle_cstr : string) : Py (Obj py) :=
  let handle_str := handle_cstr in
  let hash_pos := find_first_of handle_str "#" in
  match hash_pos with
  | None => PyImport_ImportModule handle_cstr
  | Some hash_pos =>
      let module_name := substr handle_str 0 hash_pos in
      module_obj <- PyImport_ImportModule module_name ;;
      let attr_name := stringstream (substr_from handle_str (hash_pos + 1)) in
      while_getline attr_name module_obj
  end.

End Marshaller.

Arguments ret {py A} a.
Arguments bind {py A B} m k.

End Cpp.

(** ** marshaller.c *)

Module C.

(** What lies in memory at the two blocks the C file takes from malloc: the
    one for [module_str] in [dereference_handle] and the one for [temp] in
    [_recursive_getattr].  Nothing in the program determines these bytes. *)
Record heap : Type := { at_module_str : memory; at_temp : memory }.

(** C has no exceptions: a function goes on after a call that returned NULL
    unless it tests for it.  A computation ends [Done] with a value, or its
    behaviour is [Undefined] from some call on: a NULL pointer handed to the
    runtime as an object, or a C string read that meets no terminator. *)
Inductive outcome (A : Type) : Type :=
| Done (a : A)
| Undefined.

Arguments Done {A} a.
Arguments Undefined {A}.

Section Marshaller.
Context (py : runtime) (hp : heap).

Definition Run (A : Type) : Type := (outcome A * trace py)%type.

Definition ret {A : Type} (a : A) : Run A := (Done a, []).

Definition bind {A B : Type} (m : Run A) (k : A -> Run B) : Run B :=
  match m with
  | (Done a, t) => let (r, t') := k a in (r, t ++ t')
  | (Undefined, t) => (Undefined, t)
  end.

Notation "x <- m ;; k" := (bind m (fun x => k))
  (at level 61, m at next level, right associativity).

(** The callable that PyInit_marshaller stores: importlib.import_module. *)
Definition _import_module (name : string) : Run (PyObject py) :=
  (Done (importModule py name), [Import name]).

(** [PyObject_CallFunction(callable, "s", arg)]: the C string read at [arg]
    is made a Python string, which decodes it as UTF-8, and [callable] is
    called on that string.  When the bytes do not decode, the call returns
    NULL with UnicodeDecodeError and [callable] is not entered.

    The first [from_handle] bytes at [arg] are characters of the handle.  The
    handle is the UTF-8 encoding that PyArg_ParseTuple made of a Python
    string, and the function cuts it before the ASCII character [#] only: so
    these bytes decode, and the string decodes exactly when the bytes behind
    them do (lemmas [utf8_app] and [c_call_decodes_the_string]). *)
Definition PyObject_CallFunction (callable : string -> Run (PyObject py))
    (from_handle : nat) (arg : option string) : Run (PyObject py) :=
  match arg with
  | Some s =>
      if utf8 (s +> from_handle) then callable s
      else (Done (inr (unicodeDecodeError py s)), [])
  | None => (Undefined, [])
  end.

(** [PyObject_GetAttrString(v, name)]: [v] must be an object. *)
Definition PyObject_GetAttrString (v : PyObject py) (name : option string)
    : Run (PyObject py) :=
  match v, name with
  | inl o, Some n => (Done (getAttribute py o n), [GetAttr o n])
  | _, _ => (Undefined, [])
  end.

(** The loop of lines 71 to 76, from the state ([obj], [temp], [attr_name])
    to the [obj] and [attr_name] it leaves:
    [while ((delim = strstr(attr_name, "."))) {
       temp = strncpy(temp, attr_name, delim - attr_name);
       attr_name = delim + 1;
       obj = PyObject_GetAttrString(obj, temp); }] *)
Equations? while_strstr (obj : PyObject py) (temp : memory) (attr_name : string)
  : Run (PyObject py * string) by wf (String.length attr_name) lt :=
  while_strstr obj temp attr_name with inspect (strstr attr_name ".") := {
    | exist _ (Some delim) _ =>
        let temp' := strncpy temp attr_name delim in
        obj' <- PyObject_GetAttrString obj (c_str temp') ;;
        while_strstr obj' temp' (attr_name +> (delim + 1))
    | exist _ None _ => ret (obj, attr_name) }.
Proof.
  clear while_strstr obj obj' temp temp'.
  assert (Hlen : forall s n m, String.length (substring n m s) <= m).
  { induction s as [|c s IH]; intros n m; [destruct n, m; simpl; lia|].
    destruct n, m; simpl; try lia.
    - specialize (IH 0 m). lia.
    - apply IH.
    - apply IH. }
  assert (Hpos : 0 < String.length attr_name).
  { destruct attr_name; [discriminate | simpl; lia]. }
  unfold advance.
  specialize (Hlen attr_name (delim + 1) (String.length attr_name - (delim + 1))).
  lia.
Qed.

(** Lines 71 to 79: the loop, then the lookup of what it left of
    [attr_name], on the [obj] it left. *)
Definition getattr_chain (obj : PyObject py) (temp : memory) (attr_name : string)
    : Run (PyObject py) :=
  st <- while_strstr obj temp attr_name ;;
  let (obj, attr_name) := st in
  PyObject_GetAttrString obj (Some attr_name).

Definition _recursive_getattr (obj : PyObject py) (attr_name : string)
    : Run (PyObject py) :=
  (* malloc(strlen(attr_name) + 1) *)
  let temp := at_temp hp in
  getattr_chain obj temp attr_name.

Definition dereference_handle (handle_str : string) : Run (PyObject py) :=
  let p_strstr := strstr handle_str "#" in
  match p_strstr with
  | None =>
      PyObject_CallFunction _import_module (String.length handle_str)
        (Some handle_str)
  | Some p_strstr =>
      if (p_strstr <=? 1)%nat
      then
        PyObject_CallFunction _import_module (String.length handle_str)
          (Some handle_str)
      else
        let module_len := p_strstr in
        (* malloc(module_len) *)
        let module_str := at_module_str hp in
        let module_str := strncpy module_str handle_str module_len in
        module <-
          PyObject_CallFunction _import_module module_len (c_str module_str) ;;
        match module with
        | inr e => ret (inr e)
        | inl _ => _recursive_getattr module (handle_str +> (p_strstr + 1))
        end
  end.

End Marshaller.

Arguments ret {py A} a.
Arguments bind {py A B} m k.

End C.

(** ** The resolution rule in the words of the specification

    Set [current] to the module object; for each segment of the attribute
    chain, in order, [current := getAttribute(current, segment)]; fail at the
    first lookup that fails and do not attempt the remaining segments. *)

Module Spec.
Section Resolution.
Context (py : runtime).

Fixpoint lookup (current : Obj py) (attribute_chain : list string)
    : PyObject py * trace py :=
  match attribute_chain with
  | [] => (inl current, [])
  | segment :: remaining =>
      match getAttribute py current segment with
      | inl next =>
          let (r, t) := lookup next remaining in (r, GetAttr current segment :: t)
      | inr e => (inr e, [GetAttr current segment])
      end
  end.

(** Import the module reference, then walk the chain. *)
Definition resolve (module_reference : string) (attribute_chain : list string)
    : PyObject py * trace py :=
  match importModule py module_reference with
  | inl module => let (r, t) := lookup module attribute_chain in
                  (r, Import module_reference :: t)
  | inr e => (inr e, [Import module_reference])
  end.

End Resolution.

Fixpoint occurs (c : ascii) (s : string) : bool :=
  match s with
  | EmptyString => false
  | String d s' => Ascii.eqb d c || occurs c s'
  end.

(** [s] holds no [c]. *)
Definition absent (c : ascii) (s : string) : Prop := occurs c s = false.

(** An attribute name: not empty, and holding no period. *)
Definition segment (s : string) : Prop :=
  s <> EmptyString /\ absent period s.


(** The chain as [std::getline] cuts it: an empty piece after the last
    period is no token.  (The default of [last] serves for no list of
    pieces but the empty one.) *)
Definition without_empty_tail (pieces : list string) : list string :=
  match last pieces "x" with
  | EmptyString => removelast pieces
  | _ => pieces
  end.

End Spec.

(** ** A runtime to run the two implementations on

    Objects are named by their dotted path.  The modules and attributes are
    those of the examples in the documentation string of the C file, and a
    module [m] with the attributes [a], [a.b], [a.b.c] and [x]. *)

Module Demo.

Inductive exception : Type :=
| ModuleNotFoundError (name : string)
| AttributeError (target name : string)
| UnicodeDecodeError (bytes : string).

Definition modules : list string :=
  ["collections"; "asyncio.tasks"; "hikari.net"; "foo.bar"; "m"].

Definition attributes : list (string * string) :=
  [("collections", "deque"); ("asyncio.tasks", "Task");
   ("foo.bar", "baz"); ("foo.bar.baz", "bork"); ("foo.bar.baz.bork", "qux");
   ("foo.bar", "abc"); ("foo.bar.abc", "d"); ("foo.bar.abc.d", "e");
   ("m", "a"); ("m.a", "b"); ("m.a.b", "c"); ("m", "x")].

Definition import_module (name : string) : string + exception :=
  if existsb (String.eqb name) modules then inl name
  else inr (ModuleNotFoundError name).

Definition getattr (target name : string) : string + exception :=
  if existsb (fun p => String.eqb target (fst p) && String.eqb name (snd p))
       attributes
  then inl (target ++ "." ++ name)%string
  else inr (AttributeError target name).

Definition py : runtime :=
  {| Obj := string; Exc := exception;
     importModule := import_module; getAttribute := getattr;
     unicodeDecodeError := UnicodeDecodeError |}.

(** Two states of the heap.  In [zeroed] every byte malloc hands out is NUL.
    In [used] the blocks hold bytes of an earlier use. *)
Definition zeroed : C.heap :=
  {| C.at_module_str := repeat NUL 64; C.at_temp := repeat NUL 64 |}.

Definition used : C.heap :=
  {| C.at_module_str := list_ascii_of_string "hikari.internal" ++ repeat NUL 49;
     C.at_temp := list_ascii_of_string "hikari.internal" ++ repeat NUL 49 |}.

(** Two more.  In [after_collections] the block for [module_str] holds the
    name of a module that was imported before; in [binary] it holds bytes
    that are no text. *)
Definition after_collections : C.heap :=
  {| C.at_module_str := list_ascii_of_string "collections" ++ repeat NUL 53;
     C.at_temp := repeat NUL 64 |}.

Definition binary : C.heap :=
  {| C.at_module_str := repeat (ascii_of_nat 255) 16 ++ repeat NUL 48;
     C.at_temp := repeat NUL 64 |}.

End Demo.

(** ** Reading a handle

    What a handle says, read off the string alone: the text before its first
    [#], the text after it if there is one, and the pieces that periods cut a
    text into. *)

Module Handle.

Fixpoint before_hash (s : string) : string :=
  match s with
  | EmptyString => EmptyString
  | String c rest =>
      if Ascii.eqb c hash then EmptyString else String c (before_hash rest)
  end.

Fixpoint after_hash (s : string) : option string :=
  match s with
  | EmptyString => None
  | String c rest => if Ascii.eqb c hash then Some rest else after_hash rest
  end.

(** The pieces between the periods of [s]: one more than it has periods. *)
Fixpoint pieces (s : string) : list string :=
  match s with
  | EmptyString => [EmptyString]
  | String c rest =>
      if Ascii.eqb c period then EmptyString :: pieces rest
      else match pieces rest with
           | p :: ps => String c p :: ps
           | [] => [String c EmptyString]
           end
  end.

(** The names that the C++ loop takes from a text. *)
Definition tokens (s : string) : list string :=
  Spec.without_empty_tail (pieces s).

Fixpoint count (c : ascii) (s : string) : nat :=
  match s with
  | EmptyString => 0
  | String d rest => (if Ascii.eqb d c then 1 else 0) + count c rest
  end.

End Handle.

(** ** The shape of a run *)

Module Shape.
Section Shape.
Context (py : runtime).

(** The calls [t] are lookups that start at the object [current], each on
    the object that the one before it gave; none follows a lookup that
    failed; and [r] is what the last of them gave ([current] itself when
    there is none). *)
Fixpoint follows (current : Obj py) (t : trace py) (r : PyObject py) : Prop :=
  match t with
  | [] => r = inl current
  | GetAttr target name :: t' =>
      target = current /\
      match getAttribute py target name with
      | inl next => follows next t' r
      | inr e => t' = [] /\ r = inr e
      end
  | Import _ :: _ => False
  end.

(** A run that is one import and then such lookups on the module. *)
Definition import_then_lookups (run : PyObject py * trace py) : Prop :=
  match snd run with
  | Import name :: t =>
      match importModule py name with
      | inl module => follows module t (fst run)
      | inr e => t = [] /\ fst run = inr e
      end
  | _ => False
  end.

(** A result of the specification as the C function returns it. *)
Definition returned (run : PyObject py * trace py) : C.Run py (PyObject py) :=
  (C.Done (fst run), snd run).

End Shape.

(** Every byte of [m] from offset [n] on is NUL. *)
Definition nul_from (n : nat) (m : memory) : Prop :=
  Forall (eq NUL) (skipn n m).

(** No name is shorter than the one before it, nor than [n]. *)
Fixpoint ascending (n : nat) (names : list string) : Prop :=
  match names with
  | [] => True
  | a :: names' => n <= String.length a /\ ascending (String.length a) names'
  end.

End Shape.

Import Spec.

(** * Properties *)

(** ** Strings *)

Lemma prefix_empty (s : string) : prefix EmptyString s = true.
Proof. destruct s; reflexivity. Qed.

Lemma strstr_cons (d c : ascii) (s : string) :
  strstr (String c s) (String d EmptyString) =
  if Ascii.eqb c d then Some 0
  else option_map S (strstr s (String d EmptyString)).
Proof.
  cbn [strstr prefix].
  destruct (ascii_dec d c) as [->|Hne].
  - rewrite prefix_empty, Ascii.eqb_refl. reflexivity.
  - destruct (Ascii.eqb_spec c d); [congruence | reflexivity].
Qed.

Lemma find_first_of_cons (d c : ascii) (s : string) :
  find_first_of (String c s) (String d EmptyString) =
  if Ascii.eqb c d then Some 0
  else option_map S (find_first_of s (String d EmptyString)).
Proof. cbn. rewrite orb_false_r. reflexivity. Qed.

Lemma absent_cons (d c : ascii) (s : string) :
  absent d (String c s) -> Ascii.eqb c d = false /\ absent d s.
Proof. unfold absent; cbn. apply orb_false_elim. Qed.

(** The C search and the C++ search find the same place. *)
Lemma find_first_of_strstr (d : ascii) (s : string) :
  find_first_of s (String d EmptyString) = strstr s (String d EmptyString).
Proof.
  induction s as [|c s IH]; [reflexivity|].
  rewrite strstr_cons, find_first_of_cons, IH. reflexivity.
Qed.

Lemma strstr_absent (d : ascii) (s : string) :
  absent d s -> strstr s (String d EmptyString) = None.
Proof.
  induction s as [|c s IH]; intros H; [reflexivity|].
  apply absent_cons in H as [Hc Hs].
  rewrite strstr_cons, Hc, (IH Hs). reflexivity.
Qed.

Lemma strstr_first (d : ascii) (m rest : string) :
  absent d m ->
  strstr (m ++ String d rest)%string (String d EmptyString) = Some (String.length m).
Proof.
  induction m as [|c m IH]; intros H; cbn [append String.length].
  - rewrite strstr_cons, Ascii.eqb_refl. reflexivity.
  - apply absent_cons in H as [Hc Hm].
    rewrite strstr_cons, Hc, (IH Hm). reflexivity.
Qed.

Lemma substring_all (s : string) : substring 0 (String.length s) s = s.
Proof. induction s as [|c s IH]; cbn; [|rewrite IH]; reflexivity. Qed.

Lemma substring_prefix (m rest : string) :
  substring 0 (String.length m) (m ++ rest)%string = m.
Proof.
  induction m as [|c m IH]; cbn.
  - destruct rest; reflexivity.
  - rewrite IH. reflexivity.
Qed.

Lemma advance_past (m : string) (c : ascii) (rest : string) :
  (m ++ String c rest)%string +> (String.length m + 1) = rest.
Proof.
  unfold advance. induction m as [|d m IH]; cbn.
  - rewrite Nat.sub_0_r. apply substring_all.
  - exact IH.
Qed.

Lemma substr_from_advance (s : string) (n : nat) : substr_from s n = s +> n.
Proof. reflexivity. Qed.

Lemma advance_behind (m behind : string) :
  (m ++ behind)%string +> String.length m = behind.
Proof.
  unfold advance. induction m as [|d m IH]; cbn.
  - rewrite Nat.sub_0_r. apply substring_all.
  - exact IH.
Qed.

Lemma advance_to_end (s : string) : s +> String.length s = ""%string.
Proof.
  unfold advance. rewrite Nat.sub_diag.
  induction s as [|c s IH]; cbn; [reflexivity | exact IH].
Qed.

Lemma extract_piece (a rest : string) :
  absent period a ->
  extract (a ++ String period rest)%string period = (a, Some rest).
Proof.
  induction a as [|c a IH]; intros H; cbn [append extract].
  - rewrite Ascii.eqb_refl. reflexivity.
  - apply absent_cons in H as [Hc Ha]. rewrite Hc, (IH Ha). reflexivity.
Qed.

Lemma extract_end (a : string) :
  absent period a -> extract a period = (a, None).
Proof.
  induction a as [|c a IH]; intros H; cbn [extract]; [reflexivity|].
  apply absent_cons in H as [Hc Ha]. rewrite Hc, (IH Ha). reflexivity.
Qed.

(** ** The loop of the C++ file *)

Section CppLoop.
Context (py : runtime).

Lemma while_getline_eq (stream : istream) (target : Obj py) :
  Cpp.while_getline py stream target =
  match getline stream period with
  | Some (token, stream') =>
      Cpp.bind (Cpp.PyObject_GetAttrString py target token)
               (fun target' => Cpp.while_getline py stream' target')
  | None => Cpp.ret target
  end.
Proof.
  rewrite Cpp.while_getline_equation_1. unfold inspect.
  assert (Hclause : forall v (H : getline stream period = v),
    Cpp.while_getline_unfold_clause_1 py stream (exist _ v H) target =
    match v with
    | Some (token, stream') =>
        Cpp.bind (Cpp.PyObject_GetAttrString py target token)
                 (fun target' => Cpp.while_getline py stream' target')
    | None => Cpp.ret target
    end).
  { intros [[token stream']|] H; reflexivity. }
  apply Hclause.
Qed.

Lemma while_getline_eof (buf : string) (target : Obj py) :
  Cpp.while_getline py {| rdbuf := buf; eofbit := true |} target = (inl target, []).
Proof. rewrite while_getline_eq. reflexivity. Qed.

Lemma without_empty_tail_cons (a b : string) (pieces : list string) :
  without_empty_tail (a :: b :: pieces) = a :: without_empty_tail (b :: pieces).
Proof.
  unfold without_empty_tail.
  change (last (a :: b :: pieces) "x"%string) with (last (b :: pieces) "x"%string).
  destruct (last (b :: pieces) "x"%string); reflexivity.
Qed.

(** The loop performs the lookups of the specification, in its order, on the
    tokens of the stream. *)
Lemma while_getline_lookup (pieces : list string) (target : Obj py) :
  pieces <> [] ->
  Forall (absent period) pieces ->
  Cpp.while_getline py (stringstream (String.concat "." pieces)) target =
  lookup py target (without_empty_tail pieces).
Proof.
  intros Hne Hall. revert target.
  induction Hall as [|a pieces Ha Hall IH]; [congruence|]. clear Hne.
  intros target. rewrite while_getline_eq.
  destruct pieces as [|b pieces].
  - cbn [String.concat]. unfold getline, stringstream; cbn [eofbit rdbuf].
    rewrite (extract_end _ Ha).
    destruct a as [|c a]; [reflexivity|].
    unfold Cpp.bind, Cpp.PyObject_GetAttrString.
    change (without_empty_tail [String c a]) with [String c a]. cbn [lookup].
    destruct (getAttribute py target (String c a)); [|reflexivity].
    rewrite while_getline_eof. reflexivity.
  - rewrite without_empty_tail_cons.
    change (String.concat "." (a :: b :: pieces))
      with (a ++ String period (String.concat "." (b :: pieces)))%string.
    unfold getline, stringstream; cbn [eofbit rdbuf].
    rewrite (extract_piece _ _ Ha).
    unfold Cpp.bind, Cpp.PyObject_GetAttrString. cbn [lookup].
    destruct (getAttribute py target a) as [next|e]; [|reflexivity].
    fold (stringstream (String.concat "." (b :: pieces))).
    rewrite IH by discriminate.
    destruct (lookup py next (without_empty_tail (b :: pieces))). reflexivity.
Qed.

End CppLoop.

(** ** What the C++ function does with a handle *)

Section CppHandle.
Context (py : runtime).

Lemma cpp_no_hash (handle : string) :
  absent hash handle ->
  Cpp.dereference_handle py handle = (importModule py handle, [Import handle]).
Proof.
  intros H. unfold Cpp.dereference_handle.
  rewrite find_first_of_strstr, (strstr_absent _ _ H). reflexivity.
Qed.

(** The handle is cut at its first [#]: what precedes it is imported, what
    follows it is walked. *)
Lemma cpp_hash (m : string) (pieces : list string) :
  absent hash m ->
  pieces <> [] ->
  Forall (absent period) pieces ->
  Cpp.dereference_handle py (m ++ String hash (String.concat "." pieces))%string =
  resolve py m (without_empty_tail pieces).
Proof.
  intros Hm Hne Hall. unfold Cpp.dereference_handle, resolve.
  rewrite find_first_of_strstr, (strstr_first _ _ _ Hm).
  unfold substr. rewrite substring_prefix, substr_from_advance, advance_past.
  unfold Cpp.bind, Cpp.PyImport_ImportModule.
  destruct (importModule py m) as [module|e]; [|reflexivity].
  rewrite (while_getline_lookup py pieces module Hne Hall).
  destruct (lookup py module (without_empty_tail pieces)). reflexivity.
Qed.

End CppHandle.

(** ** The C file *)

Section CLoop.
Context (py : runtime) (hp : C.heap).

Lemma while_strstr_eq (obj : PyObject py) (temp : memory) (attr_name : string) :
  C.while_strstr py obj temp attr_name =
  match strstr attr_name "." with
  | Some delim =>
      let temp' := strncpy temp attr_name delim in
      C.bind (C.PyObject_GetAttrString py obj (c_str temp'))
             (fun obj' => C.while_strstr py obj' temp' (attr_name +> (delim + 1)))
  | None => C.ret (obj, attr_name)
  end.
Proof.
  rewrite C.while_strstr_equation_1. unfold inspect.
  assert (Hclause : forall v (H : strstr attr_name "." = v),
    C.while_strstr_unfold_clause_1 py obj temp attr_name (exist _ v H) =
    match v with
    | Some delim =>
        let temp' := strncpy temp attr_name delim in
        C.bind (C.PyObject_GetAttrString py obj (c_str temp'))
               (fun obj' => C.while_strstr py obj' temp' (attr_name +> (delim + 1)))
    | None => C.ret (obj, attr_name)
    end).
  { intros [delim|] H; reflexivity. }
  apply Hclause.
Qed.

(** The conversion of the handle itself never fails: the import is entered
    on the whole of it. *)
Lemma c_call_on_handle (handle : string) :
  C.PyObject_CallFunction py (C._import_module py) (String.length handle)
    (Some handle) =
  (C.Done (importModule py handle), [Import handle]).
Proof.
  unfold C.PyObject_CallFunction. rewrite advance_to_end. reflexivity.
Qed.

(** The conversion of a string that is [m] from the handle and then the
    bytes [behind]: it is the bytes behind that decide. *)
Lemma c_call_behind (m behind : string) :
  C.PyObject_CallFunction py (C._import_module py) (String.length m)
    (Some (m ++ behind)%string) =
  if utf8 behind
  then (C.Done (importModule py (m ++ behind)%string),
        [Import (m ++ behind)%string])
  else (C.Done (inr (unicodeDecodeError py (m ++ behind)%string)), []).
Proof.
  unfold C.PyObject_CallFunction. rewrite advance_behind. reflexivity.
Qed.

Lemma c_no_hash (handle : string) :
  absent hash handle ->
  C.dereference_handle py hp handle =
  (C.Done (importModule py handle), [Import handle]).
Proof.
  intros H. unfold C.dereference_handle.
  rewrite (strstr_absent _ _ H). apply c_call_on_handle.
Qed.

(** With no character or one character before the first [#], the C function
    hands the whole handle to the import, [#] and what follows included. *)
Lemma c_hash_within_one (m rest : string) :
  absent hash m ->
  String.length m <= 1 ->
  C.dereference_handle py hp (m ++ String hash rest)%string =
  (C.Done (importModule py (m ++ String hash rest)%string),
   [Import (m ++ String hash rest)%string]).
Proof.
  intros Hm Hlen. unfold C.dereference_handle.
  rewrite (strstr_first _ _ _ Hm).
  destruct (Nat.leb_spec (String.length m) 1); [apply c_call_on_handle | lia].
Qed.

End CLoop.

(** ** Buffers that strncpy leaves without a terminator *)

Lemma c_str_app (pre : string) (m : memory) :
  absent NUL pre ->
  c_str (list_ascii_of_string pre ++ m) = option_map (append pre) (c_str m).
Proof.
  induction pre as [|c pre IH]; intros H; cbn [list_ascii_of_string app c_str].
  - destruct (c_str m); reflexivity.
  - apply absent_cons in H as [Hc Hpre]. rewrite Hc, (IH Hpre).
    destruct (c_str m); reflexivity.
Qed.

Lemma firstn_chars (pre : string) (tail : list ascii) :
  firstn (String.length pre) (list_ascii_of_string pre ++ tail) =
  list_ascii_of_string pre.
Proof.
  induction pre as [|c pre IH]; cbn; [reflexivity | rewrite IH; reflexivity].
Qed.

Lemma chars_app (pre rest : string) :
  list_ascii_of_string (pre ++ rest) =
  list_ascii_of_string pre ++ list_ascii_of_string rest.
Proof.
  induction pre as [|c pre IH]; cbn; [reflexivity | rewrite IH; reflexivity].
Qed.

Lemma strncpy_prefix (dest : memory) (pre rest : string) :
  strncpy dest (pre ++ rest)%string (String.length pre) =
  list_ascii_of_string pre ++ skipn (String.length pre) dest.
Proof.
  unfold strncpy. rewrite chars_app, <- app_assoc, firstn_chars. reflexivity.
Qed.

(** Copying [n] characters that hold no NUL leaves the first [n] bytes of the
    buffer without a terminator, whatever the buffer held. *)
Lemma strncpy_unterminated (dest : memory) (pre rest : string) :
  absent NUL pre ->
  terminated (String.length pre)
    (strncpy dest (pre ++ rest)%string (String.length pre)) = false.
Proof.
  intros H. rewrite strncpy_prefix. unfold terminated. rewrite firstn_chars.
  induction pre as [|c pre IH]; cbn [list_ascii_of_string existsb];
    [reflexivity|].
  apply absent_cons in H as [Hc Hpre].
  rewrite (IH Hpre), Ascii.eqb_sym, Hc. reflexivity.
Qed.

Section CHandle.
Context (py : runtime) (hp : C.heap).

(** With two characters or more before the first [#] the C function copies
    them to [module_str] and hands the import call the C string it then reads
    there: those characters, followed by the bytes that lie behind them up to
    a NUL. *)
Lemma c_hash_beyond_one (m rest : string) :
  absent hash m ->
  absent NUL m ->
  2 <= String.length m ->
  C.dereference_handle py hp (m ++ String hash rest)%string =
  C.bind
    (C.PyObject_CallFunction py (C._import_module py) (String.length m)
       (option_map (append m)
          (c_str (skipn (String.length m) (C.at_module_str hp)))))
    (fun module =>
       match module with
       | inl _ => C._recursive_getattr py hp module rest
       | inr e => C.ret (inr e)
       end).
Proof.
  intros Hm Hnul Hlen. unfold C.dereference_handle.
  rewrite (strstr_first _ _ _ Hm).
  destruct (Nat.leb_spec (String.length m) 1); [lia|].
  rewrite strncpy_prefix, (c_str_app _ _ Hnul), advance_past. reflexivity.
Qed.

(** One turn of the loop of [_recursive_getattr]: the name looked up is read
    from [temp], where only the characters of the segment were written. *)
Lemma while_strstr_piece (obj : PyObject py) (temp : memory) (a rest : string) :
  absent period a ->
  absent NUL a ->
  C.while_strstr py obj temp (a ++ String period rest)%string =
  C.bind
    (C.PyObject_GetAttrString py obj
       (option_map (append a) (c_str (skipn (String.length a) temp))))
    (fun obj' =>
       C.while_strstr py obj'
         (list_ascii_of_string a ++ skipn (String.length a) temp) rest).
Proof.
  intros Ha Hnul. rewrite while_strstr_eq, (strstr_first _ _ _ Ha).
  cbv zeta. rewrite strncpy_prefix, (c_str_app _ _ Hnul), advance_past.
  reflexivity.
Qed.

Lemma while_strstr_last (obj : PyObject py) (temp : memory) (a : string) :
  absent period a ->
  C.while_strstr py obj temp a = C.ret (obj, a).
Proof.
  intros Ha. rewrite while_strstr_eq, (strstr_absent _ _ Ha). reflexivity.
Qed.

End CHandle.


(** ** The walk of the C file *)

Section CWalk.
Context (py : runtime).

Lemma c_bind_assoc {A B D : Type} (m : C.Run py A) (k : A -> C.Run py B)
    (k' : B -> C.Run py D) :
  C.bind (C.bind m k) k' = C.bind m (fun a => C.bind (k a) k').
Proof.
  destruct m as [[a|] t]; cbn; [|reflexivity].
  destruct (k a) as [[b|] t1]; cbn; [|reflexivity].
  destruct (k' b) as [r t2]. rewrite app_assoc. reflexivity.
Qed.

Lemma c_bind_ret {A B : Type} (a : A) (k : A -> C.Run py B) :
  C.bind (C.ret a) k = k a.
Proof. cbn. destruct (k a). reflexivity. Qed.

(** A turn of the loop looks up the name it reads at [temp], where strncpy
    wrote the characters of the segment and nothing after them. *)
Lemma getattr_chain_piece (obj : PyObject py) (temp : memory) (a rest : string) :
  absent period a ->
  absent NUL a ->
  C.getattr_chain py obj temp (a ++ String period rest)%string =
  C.bind
    (C.PyObject_GetAttrString py obj
       (option_map (append a) (c_str (skipn (String.length a) temp))))
    (fun obj' =>
       C.getattr_chain py obj'
         (list_ascii_of_string a ++ skipn (String.length a) temp) rest).
Proof.
  intros Ha Hnul. unfold C.getattr_chain.
  rewrite (while_strstr_piece py obj temp a rest Ha Hnul), c_bind_assoc.
  reflexivity.
Qed.

Lemma getattr_chain_last (obj : PyObject py) (temp : memory) (a : string) :
  absent period a ->
  C.getattr_chain py obj temp a = C.PyObject_GetAttrString py obj (Some a).
Proof.
  intros Ha. unfold C.getattr_chain.
  rewrite (while_strstr_last py obj temp a Ha), c_bind_ret. reflexivity.
Qed.

(** The loop does not test what a lookup returned: after a lookup that failed
    the next call, in the loop or after it, is handed the NULL pointer. *)
Lemma getattr_chain_null (e : Exc py) (temp : memory) (attr_name : string) :
  C.getattr_chain py (inr e) temp attr_name = (C.Undefined, []).
Proof.
  unfold C.getattr_chain. rewrite while_strstr_eq.
  destruct (strstr attr_name "."); reflexivity.
Qed.

End CWalk.

Section CCalls.
Context (py : runtime).

Lemma getattr_obj (o : Obj py) (n : string) :
  C.PyObject_GetAttrString py (inl o) (Some n) =
  (C.Done (getAttribute py o n), [GetAttr o n]).
Proof. reflexivity. Qed.

Lemma fst_bind_done {A B : Type} (a : A) (t : trace py) (k : A -> C.Run py B) :
  fst (C.bind (C.Done a, t) k) = fst (k a).
Proof. cbn. destruct (k a). reflexivity. Qed.

Lemma fst_bind_undefined {A B : Type} (t : trace py) (k : A -> C.Run py B) :
  fst (C.bind (C.Undefined, t) k) = C.Undefined.
Proof. reflexivity. Qed.

End CCalls.

(** Evaluates the calls to the example runtime that the goal holds. *)
Ltac demo_eval :=
  cbn [importModule getAttribute Demo.py];
  repeat match goal with
  | |- context [Demo.getattr ?o ?n] =>
      let v := eval vm_compute in (Demo.getattr o n) in
      change (Demo.getattr o n) with v
  | |- context [Demo.import_module ?n] =>
      let v := eval vm_compute in (Demo.import_module n) in
      change (Demo.import_module n) with v
  end.

(** The cases of what the import call reads at [module_str]: nothing behind
    the characters copied there, bytes that decode, bytes that do not, and no
    terminator. *)
Ltac c_read_module_str :=
  destruct (c_str _) as [[|c junk]|]; cbn [option_map];
  [ rewrite c_call_behind; cbn [utf8]
  | rewrite c_call_behind; destruct (utf8 (String c junk))
  | ];
  demo_eval.

(** In the example runtime no state of the heap lets [_recursive_getattr]
    walk [abc.d.e]: [temp] still holds [bc] behind the [d] copied for the
    second lookup, which is therefore never a lookup of [d]. *)
Lemma c_recursive_getattr_stale_temp (hp : C.heap) :
  fst (C._recursive_getattr Demo.py hp (inl "foo.bar"%string) "abc.d.e") =
  C.Undefined.
Proof.
  unfold C._recursive_getattr.
  change (C.getattr_chain Demo.py (inl "foo.bar"%string) (C.at_temp hp) "abc.d.e")
    with (C.getattr_chain Demo.py (inl "foo.bar"%string) (C.at_temp hp)
            ("abc" ++ String period "d.e")%string).
  rewrite getattr_chain_piece by reflexivity.
  destruct (c_str (skipn (String.length "abc") (C.at_temp hp)))
    as [[|c junk]|] eqn:Htemp; cbn [option_map].
  - rewrite getattr_obj. demo_eval. rewrite fst_bind_done.
    change (C.getattr_chain Demo.py (inl "foo.bar.abc"%string) ?t "d.e")
      with (C.getattr_chain Demo.py (inl "foo.bar.abc"%string) t
              ("d" ++ String period "e")%string).
    rewrite getattr_chain_piece by reflexivity.
    change (skipn (String.length "d")
              (list_ascii_of_string "abc" ++ skipn (String.length "abc") (C.at_temp hp)))
      with (list_ascii_of_string "bc" ++ skipn (String.length "abc") (C.at_temp hp)).
    rewrite c_str_app, Htemp by reflexivity. cbn [option_map].
    rewrite getattr_obj. demo_eval. rewrite fst_bind_done.
    rewrite getattr_chain_null. reflexivity.
  - rewrite getattr_obj. demo_eval. rewrite fst_bind_done.
    rewrite getattr_chain_null. reflexivity.
  - reflexivity.
Qed.

(** ** Chains of attribute names *)

Lemma without_empty_tail_segments (pieces : list string) :
  Forall segment pieces -> without_empty_tail pieces = pieces.
Proof.
  intros Hall. destruct pieces as [|a pieces]; [reflexivity|].
  unfold without_empty_tail.
  assert (Hin : In (last (a :: pieces) "x"%string) (a :: pieces)).
  { rewrite (app_removelast_last "x"%string (l := a :: pieces)) at 2
      by discriminate.
    apply in_or_app. right. left. reflexivity. }
  rewrite Forall_forall in Hall. destruct (Hall _ Hin) as [Hne _].
  destruct (last (a :: pieces) "x"%string); [congruence | reflexivity].
Qed.

Lemma segments_no_period (pieces : list string) :
  Forall segment pieces -> Forall (absent period) pieces.
Proof. apply Forall_impl. intros s [_ H]. exact H. Qed.

Lemma resolve_no_chain (py : runtime) (m : string) :
  resolve py m [] = (importModule py m, [Import m]).
Proof. unfold resolve. destruct (importModule py m); reflexivity. Qed.

(** ** The C++ function on well-formed handles *)

Section CppResolves.
Context (py : runtime).

(** The C++ function resolves [m#a1.a2...an] as the specification says. *)
Lemma cpp_resolves_chain (m : string) (chain : list string) :
  absent hash m ->
  chain <> [] ->
  Forall segment chain ->
  Cpp.dereference_handle py (m ++ String hash (String.concat "." chain))%string =
  resolve py m chain.
Proof.
  intros Hm Hne Hall.
  rewrite (cpp_hash py m chain Hm Hne (segments_no_period chain Hall)).
  rewrite (without_empty_tail_segments chain Hall). reflexivity.
Qed.

Lemma cpp_three_segments (m a b c : string) (M A B R : Obj py) :
  absent hash m -> segment a -> segment b -> segment c ->
  importModule py m = inl M ->
  getAttribute py M a = inl A ->
  getAttribute py A b = inl B ->
  getAttribute py B c = inl R ->
  Cpp.dereference_handle py
    (m ++ "#" ++ a ++ "." ++ b ++ "." ++ c)%string =
  (inl R, [Import m; GetAttr M a; GetAttr A b; GetAttr B c]).
Proof.
  intros Hm Ha Hb Hc HM HA HB HR.
  change (m ++ "#" ++ a ++ "." ++ b ++ "." ++ c)%string
    with (m ++ String hash (String.concat "." [a; b; c]))%string.
  rewrite cpp_resolves_chain by (auto; discriminate).
  unfold resolve. rewrite HM. cbn [lookup]. rewrite HA, HB, HR. reflexivity.
Qed.

(** The C++ function returns at the first lookup that fails, with the
    exception of that lookup, whatever segments follow. *)
Lemma cpp_stops_at_first_failure (m a b : string) (more : list string)
    (M A : Obj py) (e : Exc py) :
  absent hash m -> segment a -> segment b -> Forall segment more ->
  importModule py m = inl M ->
  getAttribute py M a = inl A ->
  getAttribute py A b = inr e ->
  Cpp.dereference_handle py
    (m ++ String hash (String.concat "." (a :: b :: more)))%string =
  (inr e, [Import m; GetAttr M a; GetAttr A b]).
Proof.
  intros Hm Ha Hb Hmore HM HA HB.
  rewrite cpp_resolves_chain by (auto; discriminate).
  unfold resolve. rewrite HM. cbn [lookup]. rewrite HA, HB. reflexivity.
Qed.

(** A [#] with nothing after it: the module is returned as it was imported. *)
Lemma cpp_trailing_hash (m : string) :
  absent hash m ->
  Cpp.dereference_handle py (m ++ "#")%string = (importModule py m, [Import m]).
Proof.
  intros Hm.
  change (m ++ "#")%string with (m ++ String hash (String.concat "." [""%string]))%string.
  rewrite cpp_hash by (auto; try discriminate; repeat constructor).
  apply resolve_no_chain.
Qed.

(** Every run of the C++ function starts with an import. *)
Lemma cpp_always_imports (handle : string) :
  exists name : string,
    hd_error (snd (Cpp.dereference_handle py handle)) = Some (Import name).
Proof.
  unfold Cpp.dereference_handle.
  destruct (find_first_of handle "#") as [hash_pos|].
  - exists (substr handle 0 hash_pos).
    unfold Cpp.bind, Cpp.PyImport_ImportModule.
    destruct (importModule py (substr handle 0 hash_pos)) as [module|e];
      [|reflexivity].
    destruct (Cpp.while_getline py _ module). reflexivity.
  - exists handle. reflexivity.
Qed.

End CppResolves.

(** ** The C++ function depends on the handle and the runtime only *)

Lemma getline_unread (stream stream' : istream) (delim : ascii) (token : string) :
  getline stream delim = Some (token, stream') ->
  unread stream' < unread stream.
Proof.
  assert (Hx : forall s tok rest, extract s delim = (tok, Some rest) ->
                 String.length rest < String.length s).
  { induction s as [|c s IH]; cbn; intros tok rest Hs; [discriminate|].
    destruct (Ascii.eqb c delim).
    - inversion Hs; subst; lia.
    - destruct (extract s delim) as [tok' after] eqn:Hs'.
      inversion Hs; subst. specialize (IH _ _ eq_refl). lia. }
  destruct stream as [buf eof]. unfold getline, unread; cbn.
  destruct eof; [discriminate|].
  destruct (extract buf delim) as [tok [rest|]] eqn:Hb.
  - intros H; inversion H; subst; cbn. specialize (Hx _ _ _ Hb). lia.
  - destruct tok; intros H; inversion H; subst; cbn. lia.
Qed.

Section CppDeterministic.
Context (O E : Type).
Context (imp imp' : string -> O + E) (ga ga' : O -> string -> O + E).
Context (ude ude' : string -> E).
Hypothesis same_modules : forall name, imp name = imp' name.
Hypothesis same_attributes : forall o name, ga o name = ga' o name.

Lemma while_getline_ext (stream : istream) (target : O) :
  Cpp.while_getline (Build_runtime O E imp ga ude) stream target =
  Cpp.while_getline (Build_runtime O E imp' ga' ude') stream target.
Proof.
  remember (unread stream) as n eqn:Hn. revert stream target Hn.
  induction n as [n IH] using lt_wf_ind. intros stream target Hn.
  rewrite 2 while_getline_eq.
  destruct (getline stream period) as [[token stream']|] eqn:Hg; [|reflexivity].
  unfold Cpp.bind, Cpp.PyObject_GetAttrString. cbn [getAttribute].
  rewrite same_attributes. destruct (ga' target token) as [next|e]; [|reflexivity].
  apply getline_unread in Hg.
  rewrite (IH (unread stream') ltac:(lia) stream' next eq_refl). reflexivity.
Qed.

(** Two runtimes that answer every import and every lookup alike give the
    C++ function the same result and the same calls, for every handle. *)
Lemma cpp_deterministic (handle : string) :
  Cpp.dereference_handle (Build_runtime O E imp ga ude) handle =
  Cpp.dereference_handle (Build_runtime O E imp' ga' ude') handle.
Proof.
  unfold Cpp.dereference_handle.
  destruct (find_first_of handle "#") as [hash_pos|].
  - unfold Cpp.bind, Cpp.PyImport_ImportModule. cbn [importModule].
    rewrite same_modules.
    destruct (imp' (substr handle 0 hash_pos)) as [module|e]; [|reflexivity].
    rewrite while_getline_ext. reflexivity.
  - unfold Cpp.PyImport_ImportModule. cbn [importModule].
    rewrite same_modules. reflexivity.
Qed.

End CppDeterministic.

(** ** Runs on the example runtime *)

(** The handles of the documentation string, on the C++ function. *)
Example cpp_documented_handles :
  Cpp.dereference_handle Demo.py "collections#deque" =
    (inl "collections.deque"%string,
     [Import "collections"%string; GetAttr "collections"%string "deque"%string]) /\
  Cpp.dereference_handle Demo.py "asyncio.tasks#Task" =
    (inl "asyncio.tasks.Task"%string,
     [Import "asyncio.tasks"%string; GetAttr "asyncio.tasks"%string "Task"%string]) /\
  Cpp.dereference_handle Demo.py "hikari.net" =
    (inl "hikari.net"%string, [Import "hikari.net"%string]) /\
  fst (Cpp.dereference_handle Demo.py "foo.bar#baz.bork.qux") =
    inl "foo.bar.baz.bork.qux"%string.
Proof. repeat split. Qed.

(** The same handles on the C function, when every byte that malloc hands
    out happens to be NUL. *)
Example c_documented_handles_on_zeroed_heap :
  fst (C.dereference_handle Demo.py Demo.zeroed "collections#deque") =
    C.Done (inl "collections.deque"%string) /\
  fst (C.dereference_handle Demo.py Demo.zeroed "asyncio.tasks#Task") =
    C.Done (inl "asyncio.tasks.Task"%string) /\
  fst (C.dereference_handle Demo.py Demo.zeroed "hikari.net") =
    C.Done (inl "hikari.net"%string) /\
  fst (C.dereference_handle Demo.py Demo.zeroed "foo.bar#baz.bork.qux") =
    C.Done (inl "foo.bar.baz.bork.qux"%string).
Proof. repeat split. Qed.

(** The C++ function on the handles where the C function goes wrong. *)
Example cpp_on_the_failing_handles :
  Cpp.dereference_handle Demo.py "foo.bar#abc.d.e" =
    resolve Demo.py "foo.bar" ["abc"; "d"; "e"]%string /\
  fst (Cpp.dereference_handle Demo.py "foo.bar#abc.d.e") =
    inl "foo.bar.abc.d.e"%string /\
  Cpp.dereference_handle Demo.py "m#a.q" =
    (inr (Demo.AttributeError "m.a" "q"),
     [Import "m"%string; GetAttr "m"%string "a"%string;
      GetAttr "m.a"%string "q"%string]) /\
  Cpp.dereference_handle Demo.py "foo.bar#" =
    (inl "foo.bar"%string, [Import "foo.bar"%string]) /\
  Cpp.dereference_handle Demo.py "m#x" =
    (inl "m.x"%string, [Import "m"%string; GetAttr "m"%string "x"%string]) /\
  fst (Cpp.dereference_handle Demo.py "foo.bar#nope.d.e") =
    inr (Demo.AttributeError "foo.bar" "nope").
Proof. repeat split. Qed.

(** ** The C function under the letter of the C standard *)

(** When the memory known at [module_str] is the block and no more, the C
    function has no defined behaviour on any handle with two characters or
    more before the [#]: the import is handed a string without end. *)
Lemma c_undefined_within_the_block (py : runtime) (hp : C.heap) (m rest : string) :
  absent hash m ->
  absent NUL m ->
  2 <= String.length m ->
  length (C.at_module_str hp) <= String.length m ->
  C.dereference_handle py hp (m ++ String hash rest)%string = (C.Undefined, []).
Proof.
  intros Hm Hnul Hlen Hblock.
  rewrite (c_hash_beyond_one py hp m rest Hm Hnul Hlen).
  rewrite (skipn_all2 _ Hblock). reflexivity.
Qed.

(** The first lookup of [foo.bar#nope.d.e] fails.  The C function never
    returns its exception: the loop goes on with the NULL pointer. *)
Lemma c_goes_on_after_failed_lookup (hp : C.heap) :
  fst (C.dereference_handle Demo.py hp "foo.bar#nope.d.e") <>
  C.Done (inr (Demo.AttributeError "foo.bar" "nope")).
Proof.
  change (C.dereference_handle Demo.py hp "foo.bar#nope.d.e")
    with (C.dereference_handle Demo.py hp
            ("foo.bar" ++ String hash "nope.d.e")%string).
  rewrite c_hash_beyond_one by (reflexivity || (cbn; lia)).
  c_read_module_str.
  - rewrite fst_bind_done. unfold C._recursive_getattr.
    change (C.getattr_chain Demo.py (inl "foo.bar"%string) (C.at_temp hp) "nope.d.e")
      with (C.getattr_chain Demo.py (inl "foo.bar"%string) (C.at_temp hp)
              ("nope" ++ String period "d.e")%string).
    rewrite getattr_chain_piece by reflexivity.
    destruct (c_str _) as [[|c junk]|]; cbn [option_map].
    + rewrite getattr_obj. demo_eval.
      rewrite fst_bind_done, getattr_chain_null. discriminate.
    + rewrite getattr_obj. demo_eval.
      rewrite fst_bind_done, getattr_chain_null. discriminate.
    + cbn. discriminate.
  - rewrite fst_bind_done. cbn. discriminate.
  - rewrite fst_bind_done. cbn. discriminate.
  - cbn. discriminate.
Qed.

(** * The properties of the specification *)

(** C1: for a handle [m#a.b.c] whose module imports and whose attributes all
    exist, dereference_handle returns the object that the lookups of [a], [b]
    and [c] reach in turn from the module.  The C++ function does
    ([cpp_three_segments]).  The C function does not: on the handle
    [foo.bar#abc.d.e], in the example runtime where [foo.bar] has the
    attribute [abc], that one [d] and that one [e], no state of the heap
    makes it return that object. *)
Theorem c_never_resolves_abc_d_e (hp : C.heap) :
  fst (C.dereference_handle Demo.py hp "foo.bar#abc.d.e") <>
  C.Done (fst (resolve Demo.py "foo.bar" ["abc"; "d"; "e"]%string)).
Proof.
  change (fst (resolve Demo.py "foo.bar" ["abc"; "d"; "e"]%string))
    with (@inl string Demo.exception "foo.bar.abc.d.e"%string).
  change (C.dereference_handle Demo.py hp "foo.bar#abc.d.e")
    with (C.dereference_handle Demo.py hp
            ("foo.bar" ++ String hash "abc.d.e")%string).
  rewrite c_hash_beyond_one by (reflexivity || (cbn; lia)).
  c_read_module_str.
  - rewrite fst_bind_done, c_recursive_getattr_stale_temp. discriminate.
  - rewrite fst_bind_done. cbn. discriminate.
  - rewrite fst_bind_done. cbn. discriminate.
  - cbn. discriminate.
Qed.

(** C2: for a handle [m#a.b] where [a] exists on the module and [b] does not
    exist on what [a] gave, resolution fails with the error of the lookup of
    [b] and looks nothing up after it.  The C++ function does
    ([cpp_stops_at_first_failure]).  The C function, given the handle
    ["m#a.b"], looks nothing up at all: one character stands before the [#],
    and it imports the whole handle. *)
Theorem c_imports_m_hash_a_b (py : runtime) (hp : C.heap) :
  C.dereference_handle py hp "m#a.b" =
  (C.Done (importModule py "m#a.b"), [Import "m#a.b"%string]).
Proof.
  apply (c_hash_within_one py hp "m" "a.b"); [reflexivity | cbn; lia].
Qed.

(** C3: a handle that ends in a lone [#], such as ["foo.bar#"], is resolved
    as if the [#] were not there: the module is imported and returned, and
    nothing is looked up.  The C++ function does ([cpp_trailing_hash]).  The C
    function never does when the module exists: in the example runtime,
    whatever the heap holds, its run on ["foo.bar#"] is not the import of
    [foo.bar] alone. *)
Theorem c_trailing_hash_not_ignored (hp : C.heap) :
  C.dereference_handle Demo.py hp "foo.bar#" <>
  (C.Done (importModule Demo.py "foo.bar"), [Import "foo.bar"%string]).
Proof.
  change (C.dereference_handle Demo.py hp "foo.bar#")
    with (C.dereference_handle Demo.py hp ("foo.bar" ++ String hash "")%string).
  rewrite c_hash_beyond_one by (reflexivity || (cbn; lia)).
  c_read_module_str.
  - unfold C._recursive_getattr, C.bind.
    rewrite getattr_chain_last by reflexivity. rewrite getattr_obj.
    demo_eval. cbn. discriminate.
  - cbn. discriminate.
  - cbn. discriminate.
  - cbn. discriminate.
Qed.

(** C4: when at least one character stands before the first [#], the text
    before it is imported and the text after it is walked, also for a module
    reference of one character as in ["m#x"].  The C++ function does
    ([cpp_hash]).  The C function imports ["m#x"] whole and looks nothing up. *)
Theorem c_imports_m_hash_x (py : runtime) (hp : C.heap) :
  C.dereference_handle py hp "m#x" =
  (C.Done (importModule py "m#x"), [Import "m#x"%string]).
Proof.
  apply (c_hash_within_one py hp "m" "x"); [reflexivity | cbn; lia].
Qed.



(** C6: a handle without [#] is imported as a whole, and nothing is looked
    up, by the C++ function and by the C function alike. *)
Theorem no_hash_imports_whole_handle (py : runtime) (hp : C.heap) (handle : string) :
  absent hash handle ->
  Cpp.dereference_handle py handle = (importModule py handle, [Import handle]) /\
  C.dereference_handle py hp handle =
    (C.Done (importModule py handle), [Import handle]).
Proof.
  intros H. split; [apply cpp_no_hash | apply c_no_hash]; exact H.
Qed.

(** The theorem on the handle ["hikari.net"], with a heap that holds bytes of
    an earlier use. *)
Lemma no_hash_imports_whole_handle_witness :
  absent hash "hikari.net" /\
  Cpp.dereference_handle Demo.py "hikari.net" =
    (importModule Demo.py "hikari.net", [Import "hikari.net"%string]) /\
  C.dereference_handle Demo.py Demo.used "hikari.net" =
    (C.Done (importModule Demo.py "hikari.net"), [Import "hikari.net"%string]).
Proof.
  split; [reflexivity|].
  apply (no_hash_imports_whole_handle Demo.py Demo.used "hikari.net").
  reflexivity.
Defined.

(** C7: when the import of the module reference of a handle fails,
    dereference_handle returns the exception of that import, as it is, and
    looks nothing up.  The C++ function does, on every handle
    ([cpp_import_failure_propagates]).  The C function does not, because what
    it imports is not the module reference.  The example runtime has no
    module [collection] and none named [z].  On ["collection#deque"], with a
    block for [module_str] that holds the text [collections] of an earlier
    use, the C function imports [collections] and returns its class [deque]:
    it returns an object where the import of the module reference fails.  On
    ["z#x"] it imports the whole handle, and the exception it returns is that
    of another import than the one of [z]. *)
Theorem c_import_failure_not_propagated :
  importModule Demo.py "collection" =
    inr (Demo.ModuleNotFoundError "collection") /\
  C.dereference_handle Demo.py Demo.after_collections "collection#deque" =
    (C.Done (inl "collections.deque"%string),
     [Import "collections"%string; GetAttr "collections"%string "deque"%string]) /\
  importModule Demo.py "z" = inr (Demo.ModuleNotFoundError "z") /\
  C.dereference_handle Demo.py Demo.zeroed "z#x" =
    (C.Done (inr (Demo.ModuleNotFoundError "z#x")), [Import "z#x"%string]).
Proof. repeat split; vm_compute; reflexivity. Qed.

(** The block of [module_len] bytes that the C function fills and then reads
    as a C string never holds a terminator: the read always runs past it. *)
Lemma c_module_str_unterminated (hp : C.heap) (m rest : string) :
  absent NUL m ->
  let module_len := String.length m in
  terminated module_len
    (strncpy (C.at_module_str hp) (m ++ String hash rest)%string module_len) =
  false.
Proof. intros H. apply strncpy_unterminated. exact H. Qed.

(** C8: two calls of dereference_handle with the same handle against the same
    runtime give the same result.  The C++ function does
    ([cpp_deterministic]).  The C function does not: what it imports for
    ["collections#deque"] is read past the end of [module_str], and with the
    runtime unchanged one state of the heap gives the class and another gives
    an import error. *)
Theorem c_result_depends_on_the_heap :
  C.dereference_handle Demo.py Demo.zeroed "collections#deque" =
    (C.Done (inl "collections.deque"%string),
     [Import "collections"%string; GetAttr "collections"%string "deque"%string]) /\
  C.dereference_handle Demo.py Demo.used "collections#deque" =
    (C.Done (inr (Demo.ModuleNotFoundError "collectionsrnal")),
     [Import "collectionsrnal"%string]).
Proof. split; vm_compute; reflexivity. Qed.

(** When [#] is absent or is the first character, the C function imports
    the whole handle and returns the module, and looks nothing up: on every
    handle, runtime and heap.  This is the test of line 148. *)
Lemma c_whole_handle_is_the_module_reference (py : runtime) (hp : C.heap)
    (handle : string) :
  absent hash handle \/ (exists rest, handle = String hash rest) ->
  C.dereference_handle py hp handle =
  (C.Done (importModule py handle), [Import handle]).
Proof.
  intros [H | [rest ->]].
  - apply c_no_hash, H.
  - apply (c_hash_within_one py hp "" rest); [reflexivity | cbn; lia].
Qed.

(** C9: when [#] is absent or is the first character, the whole handle is the
    module reference: it is imported and the module returned, and nothing is
    looked up.  The C function does so
    ([c_whole_handle_is_the_module_reference]), and both functions do when
    [#] is absent ([cpp_no_hash], [c_no_hash]).  The C++ function has no test
    for a [#] that comes first: on ["#x"], in every runtime, it cuts the
    handle at the [#] as anywhere else, imports the empty name and walks [x],
    which is not the import of ["#x"]. *)
Theorem cpp_cuts_at_a_leading_hash (py : runtime) :
  Cpp.dereference_handle py "#x" = resolve py "" ["x"%string] /\
  Cpp.dereference_handle py "#x" <> (importModule py "#x", [Import "#x"%string]).
Proof.
  assert (H : Cpp.dereference_handle py "#x" = resolve py "" ["x"%string]).
  { change (Cpp.dereference_handle py "#x")
      with (Cpp.dereference_handle py
              ("" ++ String hash (String.concat "." ["x"%string]))%string).
    rewrite cpp_hash by (reflexivity || discriminate || (repeat constructor)).
    reflexivity. }
  split; [exact H|]. rewrite H. unfold resolve.
  destruct (importModule py "") as [module|e].
  - destruct (lookup py module _) as [r t]. intros E. inversion E.
  - intros E. inversion E.
Qed.

(** C10: the C function and the C++ function behave alike on every handle.
    They do not: on ["m#x"] the C function makes one call, the import of the
    whole handle, and the C++ function begins with the import of ["m"]. *)
Theorem c_and_cpp_differ_on_m_hash_x (py : runtime) (hp : C.heap) :
  snd (C.dereference_handle py hp "m#x") <>
  snd (Cpp.dereference_handle py "m#x").
Proof.
  change (C.dereference_handle py hp "m#x")
    with (C.dereference_handle py hp ("m" ++ String hash "x")%string).
  change (Cpp.dereference_handle py "m#x")
    with (Cpp.dereference_handle py
            ("m" ++ String hash (String.concat "." ["x"%string]))%string).
  rewrite c_hash_within_one by (reflexivity || (cbn; lia)).
  rewrite cpp_hash by (reflexivity || discriminate || (repeat constructor)).
  unfold resolve. destruct (importModule py "m") as [module|e].
  - destruct (lookup py module _) as [r t]. cbn. discriminate.
  - cbn. discriminate.
Qed.

(** * Further properties of the two files *)

Import Handle Shape.

(** ** What a handle says *)

Lemma pieces_not_nil (s : string) : pieces s <> [].
Proof.
  induction s as [|c s IH]; cbn; [discriminate|].
  destruct (Ascii.eqb c period); [discriminate|].
  destruct (pieces s); discriminate.
Qed.

Lemma pieces_no_period (s : string) : Forall (absent period) (pieces s).
Proof.
  induction s as [|c s IH]; cbn.
  - repeat constructor.
  - destruct (Ascii.eqb c period) eqn:Hc.
    + constructor; [reflexivity | exact IH].
    + destruct (pieces s) as [|p ps] eqn:Hs; [destruct (pieces_not_nil s Hs)|].
      inversion IH as [|? ? Hp Hps]; subst.
      constructor; [|exact Hps].
      unfold absent in *; cbn. rewrite Hc, Hp. reflexivity.
Qed.

Lemma concat_pieces (s : string) : String.concat "." (pieces s) = s.
Proof.
  induction s as [|c s IH]; cbn [pieces]; [reflexivity|].
  destruct (Ascii.eqb_spec c period) as [->|Hc].
  - destruct (pieces s) as [|p ps] eqn:Hp; [destruct (pieces_not_nil s Hp)|].
    change (String period (String.concat "." (p :: ps)) = String period s).
    rewrite IH. reflexivity.
  - destruct (pieces s) as [|p ps] eqn:Hp; [destruct (pieces_not_nil s Hp)|].
    destruct ps as [|q ps].
    + change (String c (String.concat "." [p]) = String c s).
      rewrite IH. reflexivity.
    + change (String c (String.concat "." (p :: q :: ps)) = String c s).
      rewrite IH. reflexivity.
Qed.

Lemma length_pieces (s : string) : length (pieces s) = S (count period s).
Proof.
  induction s as [|c s IH]; cbn; [reflexivity|].
  destruct (Ascii.eqb c period); cbn.
  - rewrite IH. reflexivity.
  - destruct (pieces s) as [|p ps]; cbn in *; [discriminate | exact IH].
Qed.

Lemma after_hash_none (s : string) :
  after_hash s = None -> absent hash s /\ before_hash s = s.
Proof.
  unfold absent. induction s as [|c s IH]; cbn; [split; reflexivity|].
  destruct (Ascii.eqb c hash); [discriminate|].
  intros H. destruct (IH H) as [Ha Hb]. rewrite Ha, Hb. split; reflexivity.
Qed.

Lemma after_hash_some (s rest : string) :
  after_hash s = Some rest ->
  absent hash (before_hash s) /\ s = (before_hash s ++ String hash rest)%string.
Proof.
  unfold absent. revert rest. induction s as [|c s IH]; cbn; [discriminate|].
  intros rest. destruct (Ascii.eqb_spec c hash) as [->|Hc].
  - intros H; inversion H; subst. split; reflexivity.
  - intros H. destruct (IH rest H) as [Ha Hb]. cbn.
    rewrite Ha, <- Hb. destruct (Ascii.eqb_spec c hash); [contradiction|].
    split; reflexivity.
Qed.

(** ** The C++ function, on every handle *)

(** The C++ function does what the handle says, whatever the handle: it
    imports the text before the first [#] (the whole handle when there is no
    [#]) and, if that succeeds, looks up the tokens of the text after it, in
    order and up to the first failure.  A later [#] is part of a name. *)
Theorem cpp_resolves_what_the_handle_says (py : runtime) (handle : string) :
  Cpp.dereference_handle py handle =
  resolve py (before_hash handle)
    (match after_hash handle with
     | Some chain => tokens chain
     | None => []
     end).
Proof.
  destruct (after_hash handle) as [chain|] eqn:Hafter.
  - destruct (after_hash_some handle chain Hafter) as [Hm Hh].
    rewrite Hh at 1. rewrite <- (concat_pieces chain) at 1.
    apply cpp_hash; [exact Hm | apply pieces_not_nil | apply pieces_no_period].
  - destruct (after_hash_none handle Hafter) as [Hh Hb].
    rewrite Hb, resolve_no_chain. apply cpp_no_hash, Hh.
Qed.

Lemma lookup_follows (py : runtime) (chain : list string) (current : Obj py) :
  follows py current (snd (lookup py current chain))
    (fst (lookup py current chain)).
Proof.
  revert current. induction chain as [|name chain IH]; intros current; cbn.
  - reflexivity.
  - destruct (getAttribute py current name) as [next|e] eqn:Hget.
    + specialize (IH next). destruct (lookup py next chain) as [r t].
      cbn in *. rewrite Hget. split; [reflexivity | exact IH].
    + cbn. rewrite Hget. repeat split.
Qed.

Lemma resolve_import_then_lookups (py : runtime) (m : string) (chain : list string) :
  import_then_lookups py (resolve py m chain).
Proof.
  unfold import_then_lookups, resolve.
  destruct (importModule py m) as [module|e] eqn:Himp.
  - pose proof (lookup_follows py chain module) as H.
    destruct (lookup py module chain) as [r t]. cbn in *.
    rewrite Himp. exact H.
  - cbn. rewrite Himp. split; reflexivity.
Qed.

Lemma length_lookup (py : runtime) (chain : list string) (current : Obj py) :
  length (snd (lookup py current chain)) <= length chain.
Proof.
  revert current. induction chain as [|name chain IH]; intros current; cbn.
  - lia.
  - destruct (getAttribute py current name) as [next|e].
    + specialize (IH next). destruct (lookup py next chain). cbn in *. lia.
    + cbn. lia.
Qed.

Lemma length_without_empty_tail (l : list string) :
  length (without_empty_tail l) <= length l.
Proof.
  unfold without_empty_tail. destruct (last l "x"%string); [|lia].
  induction l as [|a l IH]; cbn; [lia|].
  destruct l; cbn in *; lia.
Qed.

Lemma count_app (c : ascii) (s1 s2 : string) :
  count c (s1 ++ s2) = count c s1 + count c s2.
Proof. induction s1 as [|d s1 IH]; cbn; [reflexivity | rewrite IH; lia]. Qed.

(** Reads the goal's call of the C++ function as the resolution of what the
    handle says. *)
Ltac cpp_read py handle :=
  let chain := fresh "chain" in
  let Hafter := fresh "Hafter" in
  let Hm := fresh "Hm" in
  let Hh := fresh "Hh" in
  destruct (after_hash handle) as [chain|] eqn:Hafter;
  [ destruct (after_hash_some handle chain Hafter) as [Hm Hh];
    rewrite Hh at 1; rewrite <- (concat_pieces chain) at 1;
    rewrite (cpp_hash py _ _ Hm (pieces_not_nil chain) (pieces_no_period chain))
  | destruct (after_hash_none handle Hafter) as [Hm Hh];
    rewrite (cpp_no_hash py handle Hm), <- (resolve_no_chain py handle) ].

(** When the import of the module reference of a handle fails, the C++
    function returns the exception of that import and makes no other call. *)
Lemma cpp_import_failure_propagates (py : runtime) (handle : string) (e : Exc py) :
  importModule py (before_hash handle) = inr e ->
  Cpp.dereference_handle py handle = (inr e, [Import (before_hash handle)]).
Proof.
  intros He. cpp_read py handle.
  - unfold resolve. rewrite He. reflexivity.
  - rewrite Hh in He. unfold resolve. rewrite He, Hh. reflexivity.
Qed.

(** Every run of the C++ function is one import followed by lookups, each on
    the object that the call before it returned; no call follows one that
    failed; and the result is what the last call returned, be it an object or
    an exception. *)
Theorem cpp_run_is_import_then_lookups (py : runtime) (handle : string) :
  import_then_lookups py (Cpp.dereference_handle py handle).
Proof.
  cpp_read py handle.
  - apply resolve_import_then_lookups.
  - apply resolve_import_then_lookups.
Qed.

(** The C++ function makes at most one lookup for each piece that the periods
    of the handle delimit: its calls are at most two more than the handle has
    periods. *)
Theorem cpp_calls_bounded_by_periods (py : runtime) (handle : string) :
  length (snd (Cpp.dereference_handle py handle)) <= 2 + count period handle.
Proof.
  cpp_read py handle.
  - unfold resolve. destruct (importModule py _) as [module|e]; [|cbn; lia].
    pose proof (length_lookup py (without_empty_tail (pieces chain)) module) as Hl.
    pose proof (length_without_empty_tail (pieces chain)) as Hw.
    rewrite length_pieces in Hw.
    assert (Hc : count period chain <= count period handle).
    { rewrite Hh, count_app. cbn. lia. }
    destruct (lookup py module _) as [r t]. cbn in *. lia.
  - unfold resolve. destruct (importModule py handle); cbn; lia.
Qed.

Lemma string_app_assoc (a b c : string) :
  ((a ++ b) ++ c)%string = (a ++ (b ++ c))%string.
Proof. induction a as [|d a IH]; cbn; [reflexivity | rewrite IH; reflexivity]. Qed.

Lemma concat_empty_last (chain : list string) :
  chain <> [] ->
  String.concat "." (chain ++ [EmptyString]) =
  (String.concat "." chain ++ ".")%string.
Proof.
  induction chain as [|a chain IH]; [congruence|]. intros _.
  destruct chain as [|b chain].
  - cbn. reflexivity.
  - change (String.concat "." ((a :: b :: chain) ++ [EmptyString]))
      with (a ++ "." ++ String.concat "." ((b :: chain) ++ [EmptyString]))%string.
    rewrite IH by discriminate.
    change (String.concat "." (a :: b :: chain))
      with (a ++ "." ++ String.concat "." (b :: chain))%string.
    rewrite string_app_assoc. reflexivity.
Qed.

(** A period at the very end of the handle changes nothing for the C++
    function: [m#a.b.] is resolved as [m#a.b], with no lookup of an empty
    name. *)
Theorem cpp_ignores_a_final_period (py : runtime) (m : string)
    (chain : list string) :
  absent hash m ->
  chain <> [] ->
  Forall segment chain ->
  Cpp.dereference_handle py
    (m ++ String hash (String.concat "." chain ++ "."))%string =
  Cpp.dereference_handle py (m ++ String hash (String.concat "." chain))%string.
Proof.
  intros Hm Hne Hall.
  rewrite (cpp_resolves_chain py m chain Hm Hne Hall).
  rewrite <- (concat_empty_last chain Hne).
  rewrite cpp_hash.
  - unfold without_empty_tail. rewrite last_last, removelast_last. reflexivity.
  - exact Hm.
  - destruct chain; discriminate.
  - apply Forall_app. split; [apply segments_no_period, Hall|].
    repeat constructor.
Qed.

(** The theorem on the handle ["collections#deque."]. *)
Lemma cpp_ignores_a_final_period_witness :
  absent hash "collections" /\
  ["deque"%string] <> [] /\
  Forall segment ["deque"%string] /\
  Cpp.dereference_handle Demo.py "collections#deque." =
  Cpp.dereference_handle Demo.py "collections#deque".
Proof.
  assert (H1 : absent hash "collections") by reflexivity.
  assert (H2 : ["deque"%string] <> []) by discriminate.
  assert (H3 : Forall segment ["deque"%string]).
  { constructor; [|constructor]. split; [discriminate | reflexivity]. }
  split; [exact H1|]. split; [exact H2|]. split; [exact H3|].
  exact (cpp_ignores_a_final_period Demo.py "collections" ["deque"%string] H1 H2 H3).
Defined.

(** ** The C function: which branch, and what is imported *)

Lemma string_app_empty (s : string) : (s ++ "")%string = s.
Proof. induction s as [|c s IH]; cbn; [reflexivity | rewrite IH; reflexivity]. Qed.

(** With at most one character before the first [#] (or no [#] in a handle
    that short) the C function hands the handle to the import as it is, [#]
    and attribute names included, and looks nothing up; the heap plays no
    part. *)
Theorem c_imports_the_whole_handle_when_hash_comes_early (py : runtime)
    (hp : C.heap) (handle : string) :
  String.length (before_hash handle) <= 1 ->
  C.dereference_handle py hp handle =
  (C.Done (importModule py handle), [Import handle]).
Proof.
  intros Hlen. destruct (after_hash handle) as [chain|] eqn:Hafter.
  - destruct (after_hash_some handle chain Hafter) as [Hm Hh].
    remember (before_hash handle) as m eqn:Heqm. clear Heqm Hafter.
    rewrite Hh. apply (c_hash_within_one py hp m chain Hm Hlen).
  - destruct (after_hash_none handle Hafter) as [Hh _].
    apply c_no_hash, Hh.
Qed.

(** The theorem on the handle ["c#deque"]. *)
Lemma c_imports_the_whole_handle_when_hash_comes_early_witness :
  String.length (before_hash "c#deque") <= 1 /\
  C.dereference_handle Demo.py Demo.used "c#deque" =
  (C.Done (importModule Demo.py "c#deque"), [Import "c#deque"%string]).
Proof.
  assert (H : String.length (before_hash "c#deque") <= 1) by (cbn; lia).
  split; [exact H|].
  exact (c_imports_the_whole_handle_when_hash_comes_early
           Demo.py Demo.used "c#deque" H).
Defined.

(** The lemma [c_undefined_within_the_block] on the handle
    ["foo.bar#baz"], with the seven bytes of the block and nothing known
    behind them. *)
Lemma c_undefined_within_the_block_witness :
  absent hash "foo.bar" /\
  absent NUL "foo.bar" /\
  2 <= String.length "foo.bar" /\
  length (C.at_module_str
            {| C.at_module_str := repeat "x"%char 7; C.at_temp := [] |}) <=
    String.length "foo.bar" /\
  C.dereference_handle Demo.py
    {| C.at_module_str := repeat "x"%char 7; C.at_temp := [] |}
    "foo.bar#baz" = (C.Undefined, []).
Proof.
  assert (H1 : absent hash "foo.bar") by reflexivity.
  assert (H2 : absent NUL "foo.bar") by reflexivity.
  assert (H3 : 2 <= String.length "foo.bar") by (cbn; lia).
  assert (H4 : length (C.at_module_str
                         {| C.at_module_str := repeat "x"%char 7;
                            C.at_temp := [] |}) <=
               String.length "foo.bar") by (cbn; lia).
  split; [exact H1|]. split; [exact H2|]. split; [exact H3|]. split; [exact H4|].
  exact (c_undefined_within_the_block Demo.py
           {| C.at_module_str := repeat "x"%char 7; C.at_temp := [] |}
           "foo.bar" "baz" H1 H2 H3 H4).
Defined.

(** For a handle [module#name] with a single attribute name, [temp] is never
    read: if the byte behind the characters copied to [module_str] happens to
    be NUL, the C function imports the module and looks the name up, and
    returns what the specification says, failures included. *)
Theorem c_resolves_a_single_attribute (py : runtime) (hp : C.heap)
    (m a : string) :
  absent hash m ->
  absent NUL m ->
  2 <= String.length m ->
  absent period a ->
  c_str (skipn (String.length m) (C.at_module_str hp)) = Some EmptyString ->
  C.dereference_handle py hp (m ++ String hash a)%string =
  returned py (resolve py m [a]).
Proof.
  intros Hm Hnul Hlen Ha Hbyte.
  rewrite (c_hash_beyond_one py hp m a Hm Hnul Hlen), Hbyte.
  cbn [option_map]. rewrite c_call_behind. cbn [utf8].
  rewrite string_app_empty.
  unfold C.bind, resolve, returned.
  destruct (importModule py m) as [module|e]; [|reflexivity].
  unfold C._recursive_getattr. rewrite (getattr_chain_last py _ _ a Ha).
  rewrite getattr_obj. cbn [lookup].
  destruct (getAttribute py module a); reflexivity.
Qed.

(** The theorem on the handle ["collections#deque"], with a heap whose bytes
    are all NUL. *)
Lemma c_resolves_a_single_attribute_witness :
  absent hash "collections" /\
  absent NUL "collections" /\
  2 <= String.length "collections" /\
  absent period "deque" /\
  c_str (skipn (String.length "collections") (C.at_module_str Demo.zeroed)) =
    Some EmptyString /\
  C.dereference_handle Demo.py Demo.zeroed "collections#deque" =
  returned Demo.py (resolve Demo.py "collections" ["deque"%string]).
Proof.
  assert (H1 : absent hash "collections") by reflexivity.
  assert (H2 : absent NUL "collections") by reflexivity.
  assert (H3 : 2 <= String.length "collections") by (cbn; lia).
  assert (H4 : absent period "deque") by reflexivity.
  assert (H5 : c_str (skipn (String.length "collections")
                        (C.at_module_str Demo.zeroed)) = Some EmptyString)
    by reflexivity.
  split; [exact H1|]. split; [exact H2|]. split; [exact H3|].
  split; [exact H4|]. split; [exact H5|].
  exact (c_resolves_a_single_attribute Demo.py Demo.zeroed
           "collections" "deque" H1 H2 H3 H4 H5).
Defined.

(** ** The walk of the C function, on every heap *)



Section CWalkAll.
Context (py : runtime).



End CWalkAll.



(** ** What the loop of [_recursive_getattr] reads at [temp] *)

Lemma skipn_chars (a : string) (n : nat) (tail : list ascii) :
  n <= String.length a ->
  skipn n (list_ascii_of_string a ++ tail) =
  list_ascii_of_string (a +> n) ++ tail.
Proof.
  unfold advance. revert n. induction a as [|c a IH]; intros n Hn.
  - cbn in Hn. replace n with 0 by lia. reflexivity.
  - destruct n as [|n].
    + rewrite Nat.sub_0_r, substring_all. reflexivity.
    + cbn in Hn. cbn. apply IH. lia.
Qed.

Lemma absent_advance (c : ascii) (a : string) (n : nat) :
  absent c a -> absent c (a +> n).
Proof.
  unfold advance. revert n. induction a as [|d a IH]; intros n H.
  - destruct n; exact H.
  - apply absent_cons in H as [Hd Ha]. destruct n as [|n].
    + rewrite Nat.sub_0_r, substring_all.
      unfold absent in *; cbn. rewrite Hd, Ha. reflexivity.
    + cbn. apply IH, Ha.
Qed.

(** A lookup that fails inside the loop is not reported: the loop hands the
    NULL pointer to the next call, and [_recursive_getattr] has no defined
    outcome, whatever names follow. *)
Theorem c_failed_lookup_inside_the_loop_is_undefined (py : runtime)
    (hp : C.heap) (o : Obj py) (a rest junk : string) (e : Exc py) :
  absent period a ->
  absent NUL a ->
  c_str (skipn (String.length a) (C.at_temp hp)) = Some junk ->
  getAttribute py o (a ++ junk) = inr e ->
  C._recursive_getattr py hp (inl o) (a ++ String period rest)%string =
  (C.Undefined, [GetAttr o (a ++ junk)%string]).
Proof.
  intros Ha Hnul Hread Hget. unfold C._recursive_getattr.
  rewrite (getattr_chain_piece py _ _ a rest Ha Hnul), Hread.
  cbn [option_map]. rewrite getattr_obj, Hget. unfold C.bind.
  rewrite getattr_chain_null. reflexivity.
Qed.

(** The theorem on the walk of [nope.d.e] from the module [foo.bar] of the
    example runtime, with a heap whose bytes are all NUL. *)
Lemma c_failed_lookup_inside_the_loop_is_undefined_witness :
  absent period "nope" /\
  absent NUL "nope" /\
  c_str (skipn (String.length "nope") (C.at_temp Demo.zeroed)) = Some EmptyString /\
  getAttribute Demo.py "foo.bar"%string ("nope" ++ "")%string =
    inr (Demo.AttributeError "foo.bar" "nope") /\
  C._recursive_getattr Demo.py Demo.zeroed (inl "foo.bar"%string) "nope.d.e" =
  (C.Undefined, [GetAttr "foo.bar"%string "nope"%string]).
Proof.
  assert (H1 : absent period "nope") by reflexivity.
  assert (H2 : absent NUL "nope") by reflexivity.
  assert (H3 : c_str (skipn (String.length "nope") (C.at_temp Demo.zeroed)) =
               Some EmptyString) by reflexivity.
  assert (H4 : getAttribute Demo.py "foo.bar"%string ("nope" ++ "")%string =
               inr (Demo.AttributeError "foo.bar" "nope")) by reflexivity.
  split; [exact H1|]. split; [exact H2|]. split; [exact H3|]. split; [exact H4|].
  exact (c_failed_lookup_inside_the_loop_is_undefined Demo.py Demo.zeroed
           "foo.bar"%string "nope" "d.e" "" _ H1 H2 H3 H4).
Defined.

(** [temp] is written with strncpy and never terminated, so a name keeps the
    tail of the name before it: when the second name [b] is not longer than
    the first name [a], the second lookup is for [b] followed by what [a] has
    beyond the length of [b] (and by the bytes that followed [a]). *)
Theorem c_second_lookup_keeps_the_tail_of_the_first (py : runtime)
    (hp : C.heap) (o o1 : Obj py) (a b rest junk : string) :
  absent period a -> absent NUL a ->
  absent period b -> absent NUL b ->
  String.length b <= String.length a ->
  c_str (skipn (String.length a) (C.at_temp hp)) = Some junk ->
  getAttribute py o (a ++ junk) = inl o1 ->
  nth_error
    (snd (C._recursive_getattr py hp (inl o)
            (a ++ String period (b ++ String period rest))%string)) 1 =
  Some (GetAttr o1 (b ++ (a +> String.length b) ++ junk)%string).
Proof.
  intros Ha Hanul Hb Hbnul Hlen Hread Hget. unfold C._recursive_getattr.
  rewrite (getattr_chain_piece py _ _ a _ Ha Hanul), Hread.
  cbn [option_map]. rewrite getattr_obj, Hget. unfold C.bind at 1.
  rewrite (getattr_chain_piece py _ _ b rest Hb Hbnul).
  rewrite (skipn_chars a _ _ Hlen).
  rewrite (c_str_app _ _ (absent_advance NUL a _ Hanul)), Hread.
  cbn [option_map]. rewrite getattr_obj. unfold C.bind.
  destruct (C.getattr_chain py _ _ rest) as [r t]. reflexivity.
Qed.

(** The theorem on the walk of [abc.d.e] from the module [foo.bar] of the
    example runtime, with a heap whose bytes are all NUL: the second lookup
    is for [dbc]. *)
Lemma c_second_lookup_keeps_the_tail_of_the_first_witness :
  absent period "abc" /\ absent NUL "abc" /\
  absent period "d" /\ absent NUL "d" /\
  String.length "d" <= String.length "abc" /\
  c_str (skipn (String.length "abc") (C.at_temp Demo.zeroed)) = Some EmptyString /\
  getAttribute Demo.py "foo.bar"%string ("abc" ++ "")%string =
    inl "foo.bar.abc"%string /\
  nth_error
    (snd (C._recursive_getattr Demo.py Demo.zeroed (inl "foo.bar"%string)
            "abc.d.e")) 1 =
  Some (GetAttr "foo.bar.abc"%string "dbc"%string).
Proof.
  assert (H1 : absent period "abc") by reflexivity.
  assert (H2 : absent NUL "abc") by reflexivity.
  assert (H3 : absent period "d") by reflexivity.
  assert (H4 : absent NUL "d") by reflexivity.
  assert (H5 : String.length "d" <= String.length "abc") by (cbn; lia).
  assert (H6 : c_str (skipn (String.length "abc") (C.at_temp Demo.zeroed)) =
               Some EmptyString) by reflexivity.
  assert (H7 : getAttribute Demo.py "foo.bar"%string ("abc" ++ "")%string =
               inl "foo.bar.abc"%string) by reflexivity.
  split; [exact H1|]. split; [exact H2|]. split; [exact H3|].
  split; [exact H4|]. split; [exact H5|]. split; [exact H6|]. split; [exact H7|].
  exact (c_second_lookup_keeps_the_tail_of_the_first Demo.py Demo.zeroed
           "foo.bar"%string "foo.bar.abc"%string "abc" "d" "e" ""
           H1 H2 H3 H4 H5 H6 H7).
Defined.

(** ** When the C function works *)

Lemma Forall_skipn {A : Type} (P : A -> Prop) (n : nat) (l : list A) :
  Forall P l -> Forall P (skipn n l).
Proof.
  revert l. induction n as [|n IH]; intros l H; [exact H|].
  destruct l as [|a l]; [exact H|]. inversion H; subst. apply IH. assumption.
Qed.

Lemma nul_from_le (n k : nat) (m : memory) :
  nul_from n m -> n <= k -> nul_from k m.
Proof.
  unfold nul_from. intros H Hle.
  replace k with ((k - n) + n) by lia.
  rewrite <- skipn_skipn. apply Forall_skipn, H.
Qed.

Lemma c_str_nul_from (n k : nat) (m : memory) :
  nul_from n m -> n <= k -> k < length m ->
  c_str (skipn k m) = Some EmptyString.
Proof.
  intros H Hle Hlt. pose proof (nul_from_le n k m H Hle) as Hk.
  unfold nul_from in Hk. pose proof (length_skipn k m) as Hlen.
  destruct (skipn k m) as [|c tail]; [cbn in Hlen; lia|].
  inversion Hk; subst. reflexivity.
Qed.

Lemma length_chars (s : string) :
  length (list_ascii_of_string s) = String.length s.
Proof. induction s as [|c s IH]; cbn; [reflexivity | rewrite IH; reflexivity]. Qed.

Lemma length_string_app (a b : string) :
  String.length (a ++ b) = String.length a + String.length b.
Proof. induction a as [|c a IH]; cbn; [reflexivity | rewrite IH; reflexivity]. Qed.

Lemma skipn_after_chars (a : string) (tail : list ascii) :
  skipn (String.length a) (list_ascii_of_string a ++ tail) = tail.
Proof. induction a as [|c a IH]; cbn; [reflexivity | exact IH]. Qed.

Section CleanMemory.
Context (py : runtime).

Lemma lookup_cons (o : Obj py) (a : string) (chain : list string) :
  lookup py o (a :: chain) =
  match getAttribute py o a with
  | inl next => let (r, t) := lookup py next chain in (r, GetAttr o a :: t)
  | inr e => (inr e, [GetAttr o a])
  end.
Proof. reflexivity. Qed.

(** With NUL bytes from offset [n] on, in a block longer than the chain, and
    names that never get shorter while they are copied to [temp] (all but
    the last are), each name is read back as it was written, and the walk
    performs the lookups of the specification. *)
Lemma getattr_chain_on_clean_memory (chain : list string) :
  chain <> [] ->
  Forall (fun s => absent period s /\ absent NUL s) chain ->
  forall (n : nat) (o : Obj py) (temp : memory) (r : Obj py) (t : trace py),
  ascending n (removelast chain) ->
  nul_from n temp ->
  String.length (String.concat "." chain) < length temp ->
  lookup py o chain = (inl r, t) ->
  C.getattr_chain py (inl o) temp (String.concat "." chain) = (C.Done (inl r), t).
Proof.
  intros Hne Hall.
  induction Hall as [|a chain [Ha Hanul] Hall IH]; [congruence|]. clear Hne.
  intros n o temp r t Hasc Hclean Hfit Hlookup.
  destruct chain as [|b chain].
  - cbn [String.concat]. rewrite (getattr_chain_last py _ _ a Ha), getattr_obj.
    cbn [lookup] in Hlookup.
    destruct (getAttribute py o a) as [next|e]; inversion Hlookup; subst.
    reflexivity.
  - change (removelast (a :: b :: chain)) with (a :: removelast (b :: chain)) in Hasc.
    destruct Hasc as [Hn Hasc].
    change (String.concat "." (a :: b :: chain))
      with (a ++ String period (String.concat "." (b :: chain)))%string in *.
    rewrite length_string_app in Hfit. cbn [String.length] in Hfit.
    rewrite (getattr_chain_piece py _ _ a _ Ha Hanul).
    rewrite (c_str_nul_from n (String.length a) temp Hclean Hn) by lia.
    cbn [option_map]. rewrite string_app_empty, getattr_obj.
    rewrite lookup_cons in Hlookup.
    destruct (getAttribute py o a) as [next|e]; [|discriminate].
    destruct (lookup py next (b :: chain)) as [r' t'] eqn:Hrest.
    inversion Hlookup; subst.
    unfold C.bind.
    rewrite (IH ltac:(discriminate) (String.length a) next _ r t' Hasc).
    + reflexivity.
    + unfold nul_from. rewrite skipn_after_chars.
      apply (nul_from_le n _ temp Hclean Hn).
    + rewrite length_app, length_chars, length_skipn. lia.
    + exact Hrest.
Qed.

End CleanMemory.

(** The C function returns the object of the specification, with the same
    calls as the C++ function, when the resolution succeeds and three things
    hold by chance or by the shape of the handle: the byte behind the module
    name in [module_str] is NUL, [temp] holds NUL bytes only, and of the
    attribute names before the last none is shorter than the one before
    it. *)
Theorem c_agrees_with_cpp_on_clean_memory (py : runtime) (hp : C.heap)
    (m : string) (chain : list string) (o : Obj py) (t : trace py) :
  absent hash m ->
  absent NUL m ->
  2 <= String.length m ->
  chain <> [] ->
  Forall segment chain ->
  Forall (absent NUL) chain ->
  ascending 0 (removelast chain) ->
  c_str (skipn (String.length m) (C.at_module_str hp)) = Some EmptyString ->
  nul_from 0 (C.at_temp hp) ->
  String.length (String.concat "." chain) < length (C.at_temp hp) ->
  resolve py m chain = (inl o, t) ->
  C.dereference_handle py hp (m ++ String hash (String.concat "." chain))%string =
    (C.Done (inl o), t) /\
  Cpp.dereference_handle py (m ++ String hash (String.concat "." chain))%string =
    (inl o, t).
Proof.
  intros Hm Hnul Hlen Hne Hseg Hchain Hasc Hbyte Htemp Hfit Hres.
  split; [|rewrite (cpp_resolves_chain py m chain Hm Hne Hseg); exact Hres].
  rewrite (c_hash_beyond_one py hp m _ Hm Hnul Hlen), Hbyte.
  cbn [option_map]. rewrite c_call_behind. cbn [utf8].
  rewrite string_app_empty.
  unfold C.bind.
  unfold resolve in Hres.
  destruct (importModule py m) as [module|e]; [|discriminate].
  destruct (lookup py module chain) as [r t'] eqn:Hlookup.
  inversion Hres; subst.
  unfold C._recursive_getattr.
  rewrite (getattr_chain_on_clean_memory py chain Hne) with (n := 0) (r := o) (t := t').
  - reflexivity.
  - rewrite Forall_forall in *. intros s Hs. split.
    + apply (Hseg s Hs).
    + apply (Hchain s Hs).
  - exact Hasc.
  - exact Htemp.
  - exact Hfit.
  - exact Hlookup.
Qed.

(** The theorem on the handle ["foo.bar#baz.bork.qux"] of the documentation
    string, with a heap whose bytes are all NUL. *)
Lemma c_agrees_with_cpp_on_clean_memory_witness :
  absent hash "foo.bar" /\
  absent NUL "foo.bar" /\
  2 <= String.length "foo.bar" /\
  ["baz"; "bork"; "qux"]%string <> [] /\
  Forall segment ["baz"; "bork"; "qux"]%string /\
  Forall (absent NUL) ["baz"; "bork"; "qux"]%string /\
  ascending 0 (removelast ["baz"; "bork"; "qux"]%string) /\
  c_str (skipn (String.length "foo.bar") (C.at_module_str Demo.zeroed)) =
    Some EmptyString /\
  nul_from 0 (C.at_temp Demo.zeroed) /\
  String.length (String.concat "." ["baz"; "bork"; "qux"]%string) <
    length (C.at_temp Demo.zeroed) /\
  resolve Demo.py "foo.bar" ["baz"; "bork"; "qux"]%string =
    (inl "foo.bar.baz.bork.qux"%string,
     [Import "foo.bar"%string; GetAttr "foo.bar"%string "baz"%string;
      GetAttr "foo.bar.baz"%string "bork"%string;
      GetAttr "foo.bar.baz.bork"%string "qux"%string]) /\
  C.dereference_handle Demo.py Demo.zeroed "foo.bar#baz.bork.qux" =
    (C.Done (inl "foo.bar.baz.bork.qux"%string),
     [Import "foo.bar"%string; GetAttr "foo.bar"%string "baz"%string;
      GetAttr "foo.bar.baz"%string "bork"%string;
      GetAttr "foo.bar.baz.bork"%string "qux"%string]) /\
  Cpp.dereference_handle Demo.py "foo.bar#baz.bork.qux" =
    (inl "foo.bar.baz.bork.qux"%string,
     [Import "foo.bar"%string; GetAttr "foo.bar"%string "baz"%string;
      GetAttr "foo.bar.baz"%string "bork"%string;
      GetAttr "foo.bar.baz.bork"%string "qux"%string]).
Proof.
  assert (H1 : absent hash "foo.bar") by reflexivity.
  assert (H2 : absent NUL "foo.bar") by reflexivity.
  assert (H3 : 2 <= String.length "foo.bar") by (cbn; lia).
  assert (H4 : ["baz"; "bork"; "qux"]%string <> []) by discriminate.
  assert (H5 : Forall segment ["baz"; "bork"; "qux"]%string).
  { repeat constructor; discriminate. }
  assert (H6 : Forall (absent NUL) ["baz"; "bork"; "qux"]%string)
    by (repeat constructor).
  assert (H7 : ascending 0 (removelast ["baz"; "bork"; "qux"]%string))
    by (cbn; lia).
  assert (H8 : c_str (skipn (String.length "foo.bar")
                        (C.at_module_str Demo.zeroed)) = Some EmptyString)
    by reflexivity.
  assert (H9 : nul_from 0 (C.at_temp Demo.zeroed)).
  { unfold nul_from. cbn. repeat constructor. }
  assert (H10 : String.length (String.concat "." ["baz"; "bork"; "qux"]%string) <
                length (C.at_temp Demo.zeroed)) by (cbn; lia).
  assert (H11 : resolve Demo.py "foo.bar" ["baz"; "bork"; "qux"]%string =
    (inl "foo.bar.baz.bork.qux"%string,
     [Import "foo.bar"%string; GetAttr "foo.bar"%string "baz"%string;
      GetAttr "foo.bar.baz"%string "bork"%string;
      GetAttr "foo.bar.baz.bork"%string "qux"%string])) by reflexivity.
  split; [exact H1|]. split; [exact H2|]. split; [exact H3|].
  split; [exact H4|]. split; [exact H5|]. split; [exact H6|].
  split; [exact H7|]. split; [exact H8|]. split; [exact H9|].
  split; [exact H10|]. split; [exact H11|].
  exact (c_agrees_with_cpp_on_clean_memory Demo.py Demo.zeroed "foo.bar"
           ["baz"; "bork"; "qux"]%string _ _ H1 H2 H3 H4 H5 H6 H7 H8 H9 H10 H11).
Defined.

(** Where the C++ function drops a period at the end of the handle, the C
    function looks up the empty name: on [module#name.], once [name] was
    found, it returns what the lookup of [""] on that object gives. *)
Theorem c_looks_up_the_empty_name_after_a_final_period (py : runtime)
    (hp : C.heap) (m a : string) (M A : Obj py) :
  absent hash m ->
  absent NUL m ->
  2 <= String.length m ->
  absent period a ->
  absent NUL a ->
  c_str (skipn (String.length m) (C.at_module_str hp)) = Some EmptyString ->
  c_str (skipn (String.length a) (C.at_temp hp)) = Some EmptyString ->
  importModule py m = inl M ->
  getAttribute py M a = inl A ->
  C.dereference_handle py hp (m ++ String hash (a ++ "."))%string =
  (C.Done (getAttribute py A ""),
   [Import m; GetAttr M a; GetAttr A ""%string]).
Proof.
  intros Hm Hnul Hlen Ha Hanul Hbyte Htemp HM HA.
  rewrite (c_hash_beyond_one py hp m _ Hm Hnul Hlen), Hbyte.
  cbn [option_map]. rewrite c_call_behind. cbn [utf8].
  rewrite string_app_empty.
  unfold C.bind at 1.
  rewrite HM. unfold C._recursive_getattr.
  rewrite (getattr_chain_piece py _ _ a "" Ha Hanul), Htemp.
  cbn [option_map]. rewrite string_app_empty, getattr_obj, HA.
  unfold C.bind. rewrite (getattr_chain_last py _ _ "" eq_refl), getattr_obj.
  reflexivity.
Qed.

(** The theorem on the handle ["collections#deque."], with a heap whose
    bytes are all NUL: the class has no attribute of the empty name. *)
Lemma c_looks_up_the_empty_name_after_a_final_period_witness :
  absent hash "collections" /\
  absent NUL "collections" /\
  2 <= String.length "collections" /\
  absent period "deque" /\
  absent NUL "deque" /\
  c_str (skipn (String.length "collections") (C.at_module_str Demo.zeroed)) =
    Some EmptyString /\
  c_str (skipn (String.length "deque") (C.at_temp Demo.zeroed)) =
    Some EmptyString /\
  importModule Demo.py "collections" = inl "collections"%string /\
  getAttribute Demo.py "collections"%string "deque" =
    inl "collections.deque"%string /\
  C.dereference_handle Demo.py Demo.zeroed "collections#deque." =
  (C.Done (inr (Demo.AttributeError "collections.deque" "")),
   [Import "collections"%string; GetAttr "collections"%string "deque"%string;
    GetAttr "collections.deque"%string ""%string]).
Proof.
  assert (H1 : absent hash "collections") by reflexivity.
  assert (H2 : absent NUL "collections") by reflexivity.
  assert (H3 : 2 <= String.length "collections") by (cbn; lia).
  assert (H4 : absent period "deque") by reflexivity.
  assert (H5 : absent NUL "deque") by reflexivity.
  assert (H6 : c_str (skipn (String.length "collections")
                        (C.at_module_str Demo.zeroed)) = Some EmptyString)
    by reflexivity.
  assert (H7 : c_str (skipn (String.length "deque") (C.at_temp Demo.zeroed)) =
               Some EmptyString) by reflexivity.
  assert (H8 : importModule Demo.py "collections" = inl "collections"%string)
    by reflexivity.
  assert (H9 : getAttribute Demo.py "collections"%string "deque" =
               inl "collections.deque"%string) by reflexivity.
  split; [exact H1|]. split; [exact H2|]. split; [exact H3|].
  split; [exact H4|]. split; [exact H5|]. split; [exact H6|].
  split; [exact H7|]. split; [exact H8|]. split; [exact H9|].
  exact (c_looks_up_the_empty_name_after_a_final_period Demo.py Demo.zeroed
           "collections" "deque" _ _ H1 H2 H3 H4 H5 H6 H7 H8 H9).
Defined.

(** ** The conversion of the module name *)

(** The decoder on a few byte strings: plain text, the two bytes of U+00E9,
    the three of U+20AC and the four of U+1F600 decode; a lone FF, the
    overlong C0 80, the surrogate ED A0 80, F4 90 80 80 (above U+10FFFF) and a
    sequence cut short do not. *)
Example utf8_on_some_bytes :
  utf8 "hikari.net" = true /\
  utf8 (string_of_list_ascii (map ascii_of_nat [195; 169])) = true /\
  utf8 (string_of_list_ascii (map ascii_of_nat [226; 130; 172])) = true /\
  utf8 (string_of_list_ascii (map ascii_of_nat [240; 159; 152; 128])) = true /\
  utf8 (string_of_list_ascii (map ascii_of_nat [255])) = false /\
  utf8 (string_of_list_ascii (map ascii_of_nat [192; 128])) = false /\
  utf8 (string_of_list_ascii (map ascii_of_nat [237; 160; 128])) = false /\
  utf8 (string_of_list_ascii (map ascii_of_nat [244; 144; 128; 128])) = false /\
  utf8 (string_of_list_ascii (map ascii_of_nat [226; 130])) = false.
Proof. repeat split. Qed.

(** Behind bytes that decode, a string decodes exactly when the rest does. *)
Lemma utf8_app (m behind : string) :
  utf8 m = true -> utf8 (m ++ behind)%string = utf8 behind.
Proof.
  remember (String.length m) as n eqn:Hn. revert m Hn.
  induction n as [n IH] using lt_wf_ind. intros m Hn.
  assert (Hrec : forall m', String.length m' < n ->
            utf8 m' = true -> utf8 (m' ++ behind)%string = utf8 behind).
  { intros m' Hlt. exact (IH _ Hlt m' eq_refl). }
  clear IH. subst n.
  destruct m as [|a m1]; [reflexivity|]. cbn [utf8 append].
  destruct (byte_in 0 127 a); [apply Hrec; cbn; lia|].
  destruct m1 as [|b m2]; [discriminate|]. cbn [append].
  destruct (byte_in 194 223 a).
  { destruct (continuation b); [|discriminate]. cbn [andb].
    apply Hrec; cbn; lia. }
  destruct m2 as [|c m3]; [discriminate|]. cbn [append].
  destruct (leads_three a b).
  { destruct (continuation c); [|discriminate]. cbn [andb].
    apply Hrec; cbn; lia. }
  destruct m3 as [|d m4]; [discriminate|]. cbn [append].
  destruct (leads_four a b && continuation c && continuation d);
    [|discriminate].
  cbn [andb]. apply Hrec; cbn; lia.
Qed.

Lemma substring_then_advance (s : string) (n : nat) :
  n <= String.length s -> (substring 0 n s ++ s +> n)%string = s.
Proof.
  unfold advance. revert n. induction s as [|c s IH]; intros n Hn.
  - destruct n; reflexivity.
  - destruct n as [|n]; cbn.
    + rewrite substring_all. reflexivity.
    + cbn in Hn. rewrite (IH n ltac:(lia)). reflexivity.
Qed.

(** On a C string whose first [n] bytes decode, as those taken from a handle
    do, [C.PyObject_CallFunction] is the conversion of the whole string: it
    enters the callable when all the bytes decode, and returns the
    UnicodeDecodeError when they do not. *)
Lemma c_call_decodes_the_string (py : runtime)
    (callable : string -> C.Run py (PyObject py)) (n : nat) (s : string) :
  n <= String.length s ->
  utf8 (substring 0 n s) = true ->
  C.PyObject_CallFunction py callable n (Some s) =
  if utf8 s then callable s
  else (C.Done (inr (unicodeDecodeError py s)), []).
Proof.
  intros Hn Hhandle. unfold C.PyObject_CallFunction.
  pose proof (utf8_app _ (s +> n) Hhandle) as E.
  rewrite (substring_then_advance s n Hn) in E. rewrite E. reflexivity.
Qed.

(** When the bytes that lie behind the characters copied to [module_str], up
    to the first NUL, are not UTF-8, the C function calls nothing: making a
    Python string of the name fails, the import is not entered, and the
    function returns the UnicodeDecodeError of that conversion. *)
Theorem c_returns_the_conversion_error (py : runtime) (hp : C.heap)
    (m rest behind : string) :
  absent hash m ->
  absent NUL m ->
  2 <= String.length m ->
  c_str (skipn (String.length m) (C.at_module_str hp)) = Some behind ->
  utf8 behind = false ->
  C.dereference_handle py hp (m ++ String hash rest)%string =
  (C.Done (inr (unicodeDecodeError py (m ++ behind)%string)), []).
Proof.
  intros Hm Hnul Hlen Hbyte Hbehind.
  rewrite (c_hash_beyond_one py hp m rest Hm Hnul Hlen), Hbyte.
  cbn [option_map]. rewrite c_call_behind, Hbehind. reflexivity.
Qed.

(** The theorem on the handle ["foo.bar#baz"], with a heap whose block for
    [module_str] holds sixteen bytes FF: nine of them lie behind the seven
    characters copied. *)
Lemma c_returns_the_conversion_error_witness :
  absent hash "foo.bar" /\
  absent NUL "foo.bar" /\
  2 <= String.length "foo.bar" /\
  c_str (skipn (String.length "foo.bar") (C.at_module_str Demo.binary)) =
    Some (string_of_list_ascii (repeat (ascii_of_nat 255) 9)) /\
  utf8 (string_of_list_ascii (repeat (ascii_of_nat 255) 9)) = false /\
  C.dereference_handle Demo.py Demo.binary "foo.bar#baz" =
  (C.Done (inr (Demo.UnicodeDecodeError
                  ("foo.bar" ++
                   string_of_list_ascii (repeat (ascii_of_nat 255) 9)))), []).
Proof.
  assert (H1 : absent hash "foo.bar") by reflexivity.
  assert (H2 : absent NUL "foo.bar") by reflexivity.
  assert (H3 : 2 <= String.length "foo.bar") by (cbn; lia).
  assert (H4 : c_str (skipn (String.length "foo.bar")
                        (C.at_module_str Demo.binary)) =
               Some (string_of_list_ascii (repeat (ascii_of_nat 255) 9)))
    by reflexivity.
  assert (H5 : utf8 (string_of_list_ascii (repeat (ascii_of_nat 255) 9)) = false)
    by reflexivity.
  split; [exact H1|]. split; [exact H2|]. split; [exact H3|].
  split; [exact H4|]. split; [exact H5|].
  exact (c_returns_the_conversion_error Demo.py Demo.binary
           "foo.bar" "baz" _ H1 H2 H3 H4 H5).
Defined.
